(** * Phone Express AI: the request handlers of [chatbot/views.py]

    A shallow embedding of the three JSON handlers of the storefront
    ([phones_api], [chat_api], [create_order]) and of the parts of the
    Python runtime, of the Django object store and of the [decimal] module
    they rely on, followed by the properties of the order placement, the
    catalog query and the chat gateway.

    Modelling conventions.
    - Python integers are [Z]; JSON documents are the inductive [json];
      a parsed JSON object is the list of its items, looked up by key.
    - Python floats are IEEE binary64 values, [spec_float] at precision 53.
    - [decimal.Decimal] is a sign, a coefficient and an exponent, with the
      default context (28 significant digits, round half even).
    - The Phone table is a finite map from primary key to row; the Order
      table is the list of its rows in insertion order.
    - Exceptions are modelled by their class; [try]/[except] is [try_except].
      The text of [str(e)] is not modelled: it appears in responses as the
      fragment [StrOf e].
    - Every handler runs in the monad [M] of a world (the two tables and the
      log of requests sent to the text-generation service) with exceptions;
      a write that happened before an exception stays in the world: the
      views open no transaction, and the connection is taken to run in
      Django's default autocommit mode (the settings module is not among
      the sources).
    - What the handlers cannot control is gathered in an environment [env]:
      whether a database statement raises, and what the text-generation
      service answers.
    - The decorators ([csrf_exempt], [require_http_methods]) and the two
      views that only render a template are not modelled: a handler here is
      the body of the view, applied to the body of a POST request. *)

From Stdlib Require Import ZArith QArith String Ascii List Bool Lia.
From Stdlib Require Import Floats.SpecFloat.
From stdpp Require Import base option list gmap.

Local Open Scope string_scope.
Local Open Scope list_scope.
Local Open Scope Z_scope.

(** ** Exceptions and outcomes *)

Inductive exn :=
| ValueError | TypeError | AttributeError | KeyError | IndexError
| OverflowError
| JSONDecodeError        (* json.loads on a body that is not JSON *)
| DoesNotExist           (* Phone.DoesNotExist *)
| DatabaseError          (* django.db.Error raised by a query *)
| RequestException.      (* requests.RequestException and its subclasses *)

Inductive outcome (A : Type) :=
| Ok (a : A)
| Raise (e : exn).
Arguments Ok {A} a.
Arguments Raise {A} e.

(** ** JSON documents and the Python operations applied to them *)

#[warnings="-register-all"]
Inductive json :=
| JNull
| JBool (b : bool)
| JInt (n : Z)
| JFloat (f : spec_float)
| JStr (s : string)
| JArr (xs : list json)
| JObj (items : list (string * json)).

(** [bool(v)], as used by [not v] and [all([...])]. *)
Definition truthy (v : json) : bool :=
  match v with
  | JNull => false
  | JBool b => b
  | JInt n => negb (n =? 0)
  | JFloat (S754_zero _) => false
  | JFloat _ => true
  | JStr s => negb (String.eqb s "")
  | JArr xs => match xs with [] => false | _ => true end
  | JObj items => match items with [] => false | _ => true end
  end.

(** The value bound to [key] in a dict. *)
Fixpoint assoc (key : string) (items : list (string * json)) : option json :=
  match items with
  | [] => None
  | (k, v) :: rest => if String.eqb k key then Some v else assoc key rest
  end.

(** [data.get(key, default)]: only a dict has a [get] method. *)
Definition py_get (data : json) (key : string) (default : json) : outcome json :=
  match data with
  | JObj items =>
      match assoc key items with
      | Some v => Ok v
      | None => Ok default
      end
  | _ => Raise AttributeError
  end.

(** *** [int(x)] *)

(** The characters [int] skips around a literal: space, [\t \n \v \f \r]. *)
Definition is_space (c : ascii) : bool :=
  let n := Z.of_nat (nat_of_ascii c) in
  (n =? 32) || ((9 <=? n) && (n <=? 13)).

Definition digit_of (c : ascii) : option Z :=
  let n := Z.of_nat (nat_of_ascii c) in
  if (48 <=? n) && (n <=? 57) then Some (n - 48) else None.

Fixpoint lstrip (cs : list ascii) : list ascii :=
  match cs with
  | c :: rest => if is_space c then lstrip rest else cs
  | [] => []
  end.

(** [int] of a string, for text in ASCII: optional spaces, an optional
    sign, digits. (CPython also accepts the decimal digits of other scripts
    and, from 3.11 on, refuses literals of more than 4300 digits; neither is
    modelled.) *)

(** Digits, with single underscores allowed between two digits.
    [after_digit] tells whether the previous character was a digit;
    the literal ends at the first space, after which only spaces follow. *)
Fixpoint int_digits (acc : Z) (after_digit : bool) (cs : list ascii) : option Z :=
  match cs with
  | [] => if after_digit then Some acc else None
  | c :: rest =>
      match digit_of c with
      | Some d => int_digits (10 * acc + d) true rest
      | None =>
          if Ascii.eqb c "_"%char then
            match rest with
            | c' :: _ =>
                if after_digit && bool_decide (is_Some (digit_of c'))
                then int_digits acc false rest
                else None
            | [] => None
            end
          else if is_space c then
            if after_digit then
              match lstrip rest with [] => Some acc | _ => None end
            else None
          else None
      end
  end.

Definition int_of_string (s : string) : option Z :=
  match lstrip (list_ascii_of_string s) with
  | c :: rest =>
      if Ascii.eqb c "-"%char then Z.opp <$> int_digits 0 false rest
      else if Ascii.eqb c "+"%char then int_digits 0 false rest
      else int_digits 0 false (c :: rest)
  | [] => None
  end.

(** [int(f)] for a float: truncation toward zero. *)
Definition int_of_float (f : spec_float) : outcome Z :=
  match f with
  | S754_zero _ => Ok 0
  | S754_infinity _ => Raise OverflowError
  | S754_nan => Raise ValueError
  | S754_finite s m e =>
      let a := if 0 <=? e then Z.shiftl (Zpos m) e else Z.shiftr (Zpos m) (- e) in
      Ok (if s then - a else a)
  end.

Definition py_int (v : json) : outcome Z :=
  match v with
  | JNull => Raise TypeError
  | JBool b => Ok (if b then 1 else 0)
  | JInt n => Ok n
  | JFloat f => int_of_float f
  | JStr s =>
      match int_of_string s with
      | Some n => Ok n
      | None => Raise ValueError
      end
  | JArr _ | JObj _ => Raise TypeError
  end.

(** The last [n] items of a list, all of them if there are fewer. *)
Definition last_n {A} (n : nat) (xs : list A) : list A :=
  drop (length xs - n)%nat xs.

(** [v[-10:]]: the last ten items of a list; a string yields its last ten
    characters, which the loop over the slice then visits one by one.
    No other JSON value can be sliced. For a dict the slice is looked up as
    a key: before CPython 3.12 a slice cannot be hashed and the lookup
    raises [TypeError]; from 3.12 on it can, and the lookup raises
    [KeyError]. [slices_hashable] tells which interpreter runs the code. *)
Definition py_last10 (slices_hashable : bool) (v : json) : outcome (list json) :=
  match v with
  | JArr xs => Ok (last_n 10 xs)
  | JStr s => Ok (map (fun c => JStr (String c EmptyString)) (last_n 10 (list_ascii_of_string s)))
  | JObj _ => Raise (if slices_hashable then KeyError else TypeError)
  | _ => Raise TypeError
  end.

(** Substring test, for [key in s] on a string. *)
Fixpoint is_substring (p s : string) : bool :=
  String.prefix p s ||
  match s with
  | EmptyString => false
  | String _ s' => is_substring p s'
  end.

Definition is_str (key : string) (v : json) : bool :=
  match v with
  | JStr s => String.eqb s key
  | _ => false
  end.

(** [key in v] for a string [key]. *)
Definition py_contains (key : string) (v : json) : outcome bool :=
  match v with
  | JObj items => Ok (bool_decide (is_Some (assoc key items)))
  | JArr xs => Ok (existsb (is_str key) xs)
  | JStr s => Ok (is_substring key s)
  | _ => Raise TypeError
  end.

(** [v[key]] for a string [key]. *)
Definition py_getitem (v : json) (key : string) : outcome json :=
  match v with
  | JObj items =>
      match assoc key items with
      | Some x => Ok x
      | None => Raise KeyError
      end
  | _ => Raise TypeError
  end.

(** [v[0]]. The keys of a parsed JSON object are strings, so [0] is never
    one of them. *)
Definition py_first (v : json) : outcome json :=
  match v with
  | JArr (x :: _) => Ok x
  | JArr [] => Raise IndexError
  | JStr (String c _) => Ok (JStr (String c EmptyString))
  | JStr EmptyString => Raise IndexError
  | JObj _ => Raise KeyError
  | _ => Raise TypeError
  end.

(** [len(v) == 0]. *)
Definition py_len_is_zero (v : json) : outcome bool :=
  match v with
  | JArr xs => Ok (bool_decide (xs = []))
  | JObj items => Ok (bool_decide (items = []))
  | JStr s => Ok (String.eqb s "")
  | _ => Raise TypeError
  end.

(** ** [decimal.Decimal] in the default context *)

Record decimal := Dec { dsign : bool; dcoeff : N; dexp : Z }.

(** Number of decimal digits of a coefficient, [len(str(n))]. *)
Fixpoint ndigits_aux (fuel : nat) (n : N) : Z :=
  match fuel with
  | O => 1
  | S fuel' => if (n <? 10)%N then 1 else 1 + ndigits_aux fuel' (n / 10)%N
  end.

Definition ndigits (n : N) : Z := ndigits_aux (N.to_nat (N.log2 n)) n.

Definition context_prec : Z := 28.

(** [Decimal._fix]: a coefficient longer than the context precision is
    rounded half-even to [context_prec] digits (the exponent limits of the
    context, far beyond any amount handled here, are not modelled). *)
Definition dec_fix (d : decimal) : decimal :=
  let n := ndigits (dcoeff d) in
  if n <=? context_prec then d
  else
    let k := n - context_prec in
    let unit := (10 ^ Z.to_N k)%N in
    let q := (dcoeff d / unit)%N in
    let r := (dcoeff d mod unit)%N in
    let half := (unit / 2)%N in
    let up := (half <? r)%N || ((r =? half)%N && N.odd q) in
    let c := if up then (q + 1)%N else q in
    if (c =? 10 ^ Z.to_N context_prec)%N
    then Dec (dsign d) (10 ^ Z.to_N (context_prec - 1))%N (dexp d + k + 1)
    else Dec (dsign d) c (dexp d + k).

Definition dec_of_int (n : Z) : decimal := Dec (n <? 0) (Z.abs_N n) 0.

Definition dec_mul (a b : decimal) : decimal :=
  dec_fix (Dec (xorb (dsign a) (dsign b)) (dcoeff a * dcoeff b)%N (dexp a + dexp b)).

(** [d * n] for an integer [n]: the integer is converted exactly. *)
Definition dec_mul_int (d : decimal) (n : Z) : decimal := dec_mul d (dec_of_int n).

(** The number a decimal denotes. *)
Definition dec_signed (d : decimal) : Z :=
  if dsign d then - Z.of_N (dcoeff d) else Z.of_N (dcoeff d).

Definition dec_value (d : decimal) : Q :=
  if 0 <=? dexp d then inject_Z (dec_signed d * 10 ^ dexp d)
  else Qmake (dec_signed d) (Z.to_pos (10 ^ (- dexp d))).

(** ** Binary64 floats *)

Definition binary64_round := binary_round 53 1024.
Definition binary64_div := SFdiv 53 1024.

(** [float(d)]: the double nearest to the decimal (ties to even). *)
Definition float_of_decimal (d : decimal) : spec_float :=
  match dcoeff d with
  | N0 => S754_zero (dsign d)
  | Npos c =>
      if 0 <=? dexp d
      then binary64_round (dsign d) (c * Z.to_pos (10 ^ dexp d))%positive 0
      else binary64_div (S754_finite (dsign d) c 0)
                        (S754_finite false (Z.to_pos (10 ^ (- dexp d))) 0)
  end.

(** The number a float denotes, when it is one. *)
Definition float_value (f : spec_float) : option Q :=
  match f with
  | S754_zero _ => Some (inject_Z 0)
  | S754_finite s m e =>
      let n := if s then Zneg m else Zpos m in
      Some (if 0 <=? e then inject_Z (n * 2 ^ e) else Qmake n (Z.to_pos (2 ^ (- e))))
  | _ => None
  end.

(** ** Formatted text

    An f-string is kept as the list of its pieces: literal text and the
    values substituted into it. *)

Inductive frag :=
| Lit (s : string)        (* literal text, or a string value *)
| Int (n : Z)             (* an integer, [{n}] *)
| Money (d : decimal)     (* a decimal under the format [:,.2f] *)
| StrOf (e : exn).        (* [str(e)] *)

Definition text := list frag.

(** [sep.join(lines)] *)
Fixpoint join (sep : text) (lines : list text) : text :=
  match lines with
  | [] => []
  | [l] => l
  | l :: rest => l ++ sep ++ join sep rest
  end.

(** [not t]: the text is the empty string. Numbers print at least one
    character; the text of an exception is not modelled and no text tested
    here contains one. *)
Definition text_empty (t : text) : bool :=
  forallb (fun f => match f with Lit s => String.eqb s "" | _ => false end) t.

(** ** The data model ([chatbot/models.py])

    Modelled from the spec: the model declarations are not part of the
    sources at hand. A phone has a name, brand, model, decimal price,
    description, integer stock and an availability flag; its identifier is
    the primary key under which the row is stored. An order refers to one
    phone by its key and records the customer fields, the quantity, the
    total and a status. *)

Record Phone := {
  name : string;
  brand : string;
  model : string;
  price_php : decimal;
  description : string;
  stock : Z;
  is_available : bool
}.

(** What a text column holds for a value assigned to it: a string as it
    is, any other value as its [str(v)], whose text is not modelled. *)
Inductive column :=
| Text (s : string)
| TextOf (v : json).

Definition to_text (v : json) : column :=
  match v with
  | JStr s => Text s
  | _ => TextOf v
  end.

(** The quantity of an order is an integer; the spec has it positive, and
    whether the database refuses an insert for the values of its row is the
    environment's to say ([db_fault] below). *)
Record Order := {
  order_id : Z;
  customer_name : column;
  customer_email : column;
  customer_phone : column;
  phone : Z;
  quantity : Z;
  total_price_php : decimal;
  shipping_address : column;
  status : string
}.

(** ** Responses, and requests to the text-generation service *)

(** Values the handlers put into the JSON they emit. *)
#[warnings="-register-all"]
Inductive out :=
| OBool (b : bool)
| OInt (n : Z)
| OFloat (f : spec_float)
| OStr (s : string)
| OText (t : text)
| OJson (v : json)
| OArr (xs : list out)
| OObj (items : list (string * out)).

Record message := { role : out; content : out }.

Record payload := {
  payload_model : string;
  messages : list message;
  temperature : spec_float;
  max_tokens : Z
}.

(** [JsonResponse(body, status=status)] *)
Record JsonResponse := { body : list (string * out); status_code : Z }.

Definition field (key : string) (r : JsonResponse) : option out :=
  snd <$> find (fun kv => String.eqb (fst kv) key) (body r).

(** The response carries [success: True]. *)
Definition succeeded (r : JsonResponse) : bool :=
  match field "success" r with
  | Some (OBool b) => b
  | _ => false
  end.

Record http_post := {
  url : string;
  headers : list (string * string);
  body_json : payload;
  timeout : Z
}.

(** ** The world and its environment *)

Record world := {
  phones : gmap Z Phone;
  orders : list Order;
  sent : list http_post
}.

Inductive db_op := OpGet | OpFilter | OpCreate | OpSave.

(** What a handler cannot control during one request: the configured API
    key, whether a database statement raises (and what), what the
    text-generation service answers to a request (the decoded JSON of its
    reply, or the exception raised by [requests.post], [raise_for_status]
    or [response.json]), and which interpreter runs the code. *)
Record env := {
  OPENROUTER_API_KEY : string;
  db_fault : db_op -> option exn;
  openrouter : http_post -> outcome json;
  slices_hashable : bool        (* the interpreter is CPython 3.12 or later *)
}.

Definition no_fault : db_op -> option exn := fun _ => None.

(** ** The handler monad: state and exceptions *)

Definition M (A : Type) : Type := world -> outcome A * world.

Definition ret {A} (a : A) : M A := fun w => (Ok a, w).

Definition raise {A} (e : exn) : M A := fun w => (Raise e, w).

Definition bind {A B} (m : M A) (k : A -> M B) : M B :=
  fun w =>
    match m w with
    | (Ok a, w') => k a w'
    | (Raise e, w') => (Raise e, w')
    end.

Definition lift {A} (o : outcome A) : M A := fun w => (o, w).

(** [try: m  except Exception as e: h e] *)
Definition try_except {A} (m : M A) (h : exn -> M A) : M A :=
  fun w =>
    match m w with
    | (Ok a, w') => (Ok a, w')
    | (Raise e, w') => h e w'
    end.

Notation "x <- m ;; k" := (bind m (fun x => k))
  (at level 100, m at next level, right associativity).

Fixpoint mapM {A B} (f : A -> M B) (xs : list A) : M (list B) :=
  match xs with
  | [] => ret []
  | x :: rest => y <- f x ;; ys <- mapM f rest ;; ret (y :: ys)
  end.

(** ** The object store *)

(** A statement sent to the database raises when the environment says so. *)
Definition execute (E : env) (op : db_op) : M unit :=
  match db_fault E op with
  | Some e => raise e
  | None => ret tt
  end.

Definition in_stock (row : Z * Phone) : Prop :=
  is_available row.2 = true /\ 0 < stock row.2.

#[global] Instance in_stock_dec row : Decision (in_stock row).
Proof. unfold in_stock. apply _. Defined.

(** [Phone.objects.filter(is_available=True, stock__gt=0)], evaluated. *)
Definition Phone_objects_filter (E : env) : M (list (Z * Phone)) :=
  _ <- execute E OpFilter ;;
  fun w => (Ok (map_to_list (filter in_stock (phones w))), w).

(** [Phone.objects.get(id=phone_id, is_available=True)]: the key is
    converted with [int] when the query is built. *)
Definition Phone_objects_get (E : env) (phone_id : json) : M (Z * Phone) :=
  pk <- lift (py_int phone_id) ;;
  _ <- execute E OpGet ;;
  fun w =>
    match phones w !! pk with
    | Some p => if is_available p then (Ok (pk, p), w) else (Raise DoesNotExist, w)
    | None => (Raise DoesNotExist, w)
    end.

(** Modelled from the spec: the identifier the database gives the next
    order is one the table does not hold yet, here one more than the
    largest in it. *)
Definition next_order_id (os : list Order) : Z :=
  1 + foldr Z.max 0 (map order_id os).

(** [Order.objects.create(...)]: the row is inserted under a fresh
    identifier and returned. *)
Definition Order_objects_create (E : env)
    (customer_name customer_email customer_phone : json) (phone : Z)
    (quantity : Z) (total_price_php : decimal) (shipping_address : json)
    (status : string) : M Order :=
  _ <- execute E OpCreate ;;
  fun w =>
    let o := {| order_id := next_order_id (orders w);
                customer_name := to_text customer_name;
                customer_email := to_text customer_email;
                customer_phone := to_text customer_phone;
                phone := phone;
                quantity := quantity;
                total_price_php := total_price_php;
                shipping_address := to_text shipping_address;
                status := status |} in
    (Ok o, {| phones := phones w; orders := orders w ++ [o]; sent := sent w |}).

(** [phone.save()]: every field of the instance is written to its row. *)
Definition Phone_save (E : env) (pk : Z) (p : Phone) : M unit :=
  _ <- execute E OpSave ;;
  fun w => (Ok tt, {| phones := <[pk := p]> (phones w); orders := orders w; sent := sent w |}).

(** [requests.post(...)], [raise_for_status()] and [response.json()]. *)
Definition requests_post (E : env) (r : http_post) : M json :=
  fun w =>
    (openrouter E r, {| phones := phones w; orders := orders w; sent := sent w ++ [r] |}).

(** ** The handlers *)

Inductive request_body :=
| NotJson                 (* a body [json.loads] rejects *)
| Json (data : json).

Definition json_loads (b : request_body) : M json :=
  match b with
  | NotJson => raise JSONDecodeError
  | Json data => ret data
  end.

Definition newline : string := String (ascii_of_nat 10) EmptyString.

Definition set_stock (n : Z) (p : Phone) : Phone :=
  {| name := name p; brand := brand p; model := model p; price_php := price_php p;
     description := description p; stock := n; is_available := is_available p |}.

Definition set_is_available (b : bool) (p : Phone) : Phone :=
  {| name := name p; brand := brand p; model := model p; price_php := price_php p;
     description := description p; stock := stock p; is_available := b |}.

(** *** [phones_api] *)

Definition phone_entry (row : Z * Phone) : out :=
  let p := row.2 in
  OObj [("id", OInt row.1);
        ("name", OStr (name p));
        ("brand", OStr (brand p));
        ("model", OStr (model p));
        ("price_php", OFloat (float_of_decimal (price_php p)));
        ("description", OStr (description p));
        ("stock", OInt (stock p))].

(** An exception leaving this handler is answered by the framework. *)
Definition phones_api (E : env) : M JsonResponse :=
  phones <- Phone_objects_filter E ;;
  let phone_list := map phone_entry phones in
  ret {| body := [("phones", OArr phone_list)]; status_code := 200 |}.

(** *** [create_order] *)

Definition create_order (E : env) (request : request_body) : M JsonResponse :=
  try_except
    (data <- json_loads request ;;
     phone_id <- lift (py_get data "phone_id" JNull) ;;
     quantity_field <- lift (py_get data "quantity" (JInt 1)) ;;
     quantity <- lift (py_int quantity_field) ;;
     customer_name <- lift (py_get data "customer_name" JNull) ;;
     customer_email <- lift (py_get data "customer_email" JNull) ;;
     customer_phone <- lift (py_get data "customer_phone" JNull) ;;
     shipping_address <- lift (py_get data "shipping_address" JNull) ;;
     (* Validate required fields *)
     if negb (forallb truthy
                [phone_id; customer_name; customer_email; customer_phone; shipping_address])
     then ret {| body := [("success", OBool false);
                          ("message", OText [Lit "All fields are required"])];
                 status_code := 400 |}
     else
       (* Get phone *)
       found <- try_except
                  (row <- Phone_objects_get E phone_id ;; ret (Some row))
                  (fun e => match e with
                            | DoesNotExist => ret None
                            | _ => raise e
                            end) ;;
       match found with
       | None =>
           ret {| body := [("success", OBool false);
                           ("message", OText [Lit "Phone not found or not available"])];
                  status_code := 404 |}
       | Some (pk, phone) =>
           (* Check stock *)
           if stock phone <? quantity
           then ret {| body := [("success", OBool false);
                                ("message", OText [Lit "Only "; Int (stock phone);
                                                   Lit " units available in stock"])];
                       status_code := 400 |}
           else
             (* Calculate total price *)
             let total_price := dec_mul_int (price_php phone) quantity in
             (* Create order *)
             order <- Order_objects_create E customer_name customer_email customer_phone
                        pk quantity total_price shipping_address "pending" ;;
             (* Update stock *)
             let phone := set_stock (stock phone - quantity) phone in
             let phone := if stock phone =? 0 then set_is_available false phone else phone in
             _ <- Phone_save E pk phone ;;
             ret {| body := [("success", OBool true);
                             ("message", OText [Lit "Order placed successfully!"]);
                             ("order_id", OInt (order_id order));
                             ("total_price_php", OFloat (float_of_decimal total_price))];
                    status_code := 200 |}
       end)
    (fun e =>
       ret {| body := [("success", OBool false);
                       ("message", OText [Lit "Error creating order: "; StrOf e])];
              status_code := 500 |}).

(** *** [chat_api] *)

Definition phone_line (row : Z * Phone) : text :=
  let p := row.2 in
  [Lit "- "; Lit (brand p); Lit " "; Lit (model p); Lit ": ₱"; Money (price_php p);
   Lit " ("; Int (stock p); Lit " in stock) - "; Lit (description p)].

Definition system_prompt (phones_context : text) : text :=
  [Lit "You are a phone specialist AI assistant for Phone Express AI. Your ONLY focus is helping customers with phones.

Your role is EXCLUSIVELY about phones:
1. Help customers find the perfect phone based on their needs, budget, and preferences
2. Provide detailed information about phone specifications, features, and capabilities
3. Compare different phone models and brands
4. Answer questions about phone prices, availability, and ordering
5. Recommend phones based on specific requirements (camera quality, battery life, performance, etc.)

Available phones:
"] ++ phones_context ++ [Lit "

IMPORTANT RULES:
- You ONLY discuss phones and phone-related topics
- If asked about non-phone topics, politely redirect to phone-related questions
- All prices are in Philippine Peso (PHP/₱)
- Always mention prices in PHP format (e.g., ₱25,999.00)
- Be friendly, professional, and knowledgeable about phones
- If a customer wants to order a phone, guide them to provide: name, email, phone number, shipping address, and which phone they want
- Focus on phone specifications, features, comparisons, and recommendations
- Check stock availability before confirming orders

Stay focused on phones only. Current conversation context is maintained through the chat history."].

(** One turn of the history, as appended to [messages]. *)
Definition history_message (msg : json) : M message :=
  r <- lift (py_get msg "role" (JStr "user")) ;;
  c <- lift (py_get msg "content" (JStr "")) ;;
  ret {| role := OJson r; content := OJson c |}.

Definition chat_api (E : env) (request : request_body) : M JsonResponse :=
  try_except
    (data <- json_loads request ;;
     user_message <- lift (py_get data "message" (JStr "")) ;;
     if negb (truthy user_message)
     then ret {| body := [("response", OText [Lit "Please provide a message."]);
                          ("success", OBool false)];
                 status_code := 400 |}
     else
       (* Get available phones for context *)
       phones_context <-
         try_except
           (phones <- Phone_objects_filter E ;;
            let phones_context := join [Lit newline] (map phone_line phones) in
            ret (if text_empty phones_context
                 then [Lit "No phones are currently available in stock."]
                 else phones_context))
           (fun e => ret [Lit "Phone database is currently unavailable."]) ;;
       let system_prompt := system_prompt phones_context in
       (* Prepare the request to OpenRouter API *)
       let openrouter_url := "https://openrouter.ai/api/v1/chat/completions" in
       let headers := [("Authorization", String.append "Bearer " (OPENROUTER_API_KEY E));
                       ("Content-Type", "application/json")] in
       (* Get chat history if available *)
       chat_history <- lift (py_get data "history" (JArr [])) ;;
       (* Build messages for the API *)
       let messages := [{| role := OStr "system"; content := OText system_prompt |}] in
       (* Add chat history (last 10 messages to avoid token limits) *)
       recent <- lift (py_last10 (slices_hashable E) chat_history) ;;
       turns <- mapM history_message recent ;;
       let messages := messages ++ turns in
       (* Add current user message *)
       let messages := messages ++ [{| role := OStr "user"; content := OJson user_message |}] in
       let payload := {| payload_model := "openai/gpt-3.5-turbo";
                         messages := messages;
                         temperature := float_of_decimal (Dec false 7 (-1));
                         max_tokens := 500 |} in
       (* Make request to OpenRouter *)
       result <- requests_post E {| url := openrouter_url; headers := headers;
                                    body_json := payload; timeout := 30 |} ;;
       (* Check if we got a valid response *)
       has_choices <- lift (py_contains "choices" result) ;;
       invalid <- (if negb has_choices then ret true
                   else choices <- lift (py_getitem result "choices") ;;
                        lift (py_len_is_zero choices)) ;;
       if invalid : bool
       then ret {| body := [("response", OText [Lit "Sorry, I received an invalid response from the AI service. Please try again."]);
                            ("success", OBool false)];
                   status_code := 500 |}
       else
         choices <- lift (py_getitem result "choices") ;;
         choice <- lift (py_first choices) ;;
         msg <- lift (py_getitem choice "message") ;;
         ai_message <- lift (py_getitem msg "content") ;;
         ret {| body := [("response", OJson ai_message); ("success", OBool true)];
                status_code := 200 |})
    (fun e =>
       match e with
       | RequestException =>
           ret {| body := [("response", OText [Lit "Sorry, I encountered an error connecting to the AI service. Please try again."]);
                           ("success", OBool false);
                           ("error", OText [StrOf e])];
                  status_code := 500 |}
       | KeyError =>
           ret {| body := [("response", OText [Lit "Sorry, there was an error processing the response. Please try again."]);
                           ("success", OBool false);
                           ("error", OText [Lit "Missing key: "; StrOf e])];
                  status_code := 500 |}
       | _ =>
           ret {| body := [("response", OText [Lit "Sorry, something went wrong. Please try again."]);
                           ("success", OBool false);
                           ("error", OText [StrOf e])];
                  status_code := 500 |}
       end).

(** ** Placements interleaved at the database statements

    Requests are served concurrently, and the connection commits after
    every statement. A placement in flight is therefore in one of four
    states, and a step takes it through the code up to and including its
    next statement: the [SELECT] of [Phone.objects.get], the [INSERT] of
    [Order.objects.create], the [UPDATE] of [phone.save]. The phone instance
    read by the first statement stays in the memory of the request. *)

Inductive placement :=
| Received (request : request_body)
| Loaded (pk : Z) (phone : Phone) (quantity : Z)
         (customer_name customer_email customer_phone shipping_address : json)
| Inserted (pk : Z) (phone : Phone) (quantity : Z) (total_price : decimal) (order : Order)
| Answered (r : JsonResponse).

Definition load (E : env) (request : request_body) : M placement :=
  data <- json_loads request ;;
  phone_id <- lift (py_get data "phone_id" JNull) ;;
  quantity_field <- lift (py_get data "quantity" (JInt 1)) ;;
  quantity <- lift (py_int quantity_field) ;;
  customer_name <- lift (py_get data "customer_name" JNull) ;;
  customer_email <- lift (py_get data "customer_email" JNull) ;;
  customer_phone <- lift (py_get data "customer_phone" JNull) ;;
  shipping_address <- lift (py_get data "shipping_address" JNull) ;;
  if negb (forallb truthy
             [phone_id; customer_name; customer_email; customer_phone; shipping_address])
  then ret (Answered {| body := [("success", OBool false);
                                 ("message", OText [Lit "All fields are required"])];
                        status_code := 400 |})
  else
    found <- try_except
               (row <- Phone_objects_get E phone_id ;; ret (Some row))
               (fun e => match e with
                         | DoesNotExist => ret None
                         | _ => raise e
                         end) ;;
    match found with
    | None =>
        ret (Answered {| body := [("success", OBool false);
                                  ("message", OText [Lit "Phone not found or not available"])];
                         status_code := 404 |})
    | Some (pk, phone) =>
        if stock phone <? quantity
        then ret (Answered {| body := [("success", OBool false);
                                       ("message", OText [Lit "Only "; Int (stock phone);
                                                          Lit " units available in stock"])];
                              status_code := 400 |})
        else ret (Loaded pk phone quantity
                         customer_name customer_email customer_phone shipping_address)
    end.

Definition insert_order (E : env) (pk : Z) (phone : Phone) (quantity : Z)
    (customer_name customer_email customer_phone shipping_address : json) : M placement :=
  let total_price := dec_mul_int (price_php phone) quantity in
  order <- Order_objects_create E customer_name customer_email customer_phone
             pk quantity total_price shipping_address "pending" ;;
  ret (Inserted pk phone quantity total_price order).

Definition save_phone (E : env) (pk : Z) (phone : Phone) (quantity : Z)
    (total_price : decimal) (order : Order) : M placement :=
  let phone := set_stock (stock phone - quantity) phone in
  let phone := if stock phone =? 0 then set_is_available false phone else phone in
  _ <- Phone_save E pk phone ;;
  ret (Answered {| body := [("success", OBool true);
                            ("message", OText [Lit "Order placed successfully!"]);
                            ("order_id", OInt (order_id order));
                            ("total_price_php", OFloat (float_of_decimal total_price))];
                   status_code := 200 |}).

(** One step of one placement; an exception is answered by the handler's
    outer [except] clause. *)
Definition step (E : env) (t : placement) (w : world) : placement * world :=
  let m := match t with
           | Received request => load E request
           | Loaded pk phone quantity n e p a => insert_order E pk phone quantity n e p a
           | Inserted pk phone quantity total_price order =>
               save_phone E pk phone quantity total_price order
           | Answered r => ret (Answered r)
           end in
  match m w with
  | (Ok t', w') => (t', w')
  | (Raise e, w') =>
      (Answered {| body := [("success", OBool false);
                            ("message", OText [Lit "Error creating order: "; StrOf e])];
                   status_code := 500 |}, w')
  end.

(** The placements [ts] under a schedule: each entry names the placement
    that takes the next step. *)
Fixpoint run (E : env) (schedule : list nat) (ts : list placement) (w : world)
  : list placement * world :=
  match schedule with
  | [] => (ts, w)
  | i :: rest =>
      match ts !! i with
      | Some t => let '(t', w') := step E t w in run E rest (<[i := t']> ts) w'
      | None => run E rest ts w
      end
  end.

(** Requests served one after the other. *)
Fixpoint serve_all (E : env) (requests : list request_body) (w : world)
  : list (outcome JsonResponse) * world :=
  match requests with
  | [] => ([], w)
  | request :: rest =>
      let '(r, w') := create_order E request w in
      let '(rs, w'') := serve_all E rest w' in
      (r :: rs, w'')
  end.

(** ** Vocabulary of the statements *)

(** The request is a JSON object whose five required fields are filled in,
    whose [phone_id] converts to the key [pk] and whose quantity (1 when
    omitted) converts to [q]. *)
Definition places (request : request_body) (pk q : Z) : Prop :=
  exists items,
    request = Json (JObj items)
    /\ py_int (default (JInt 1) (assoc "quantity" items)) = Ok q
    /\ py_int (default JNull (assoc "phone_id" items)) = Ok pk
    /\ Forall (fun key => truthy (default JNull (assoc key items)) = true)
              ["phone_id"; "customer_name"; "customer_email"; "customer_phone";
               "shipping_address"].

(** One of the five required fields is missing or empty. *)
Definition lacks_a_field (items : list (string * json)) : Prop :=
  Exists (fun key => truthy (default JNull (assoc key items)) = false)
         ["phone_id"; "customer_name"; "customer_email"; "customer_phone";
          "shipping_address"].

(** The invariant of the data model: a phone without stock is not available. *)
Definition stock_invariant (w : world) : Prop :=
  forall pk p, phones w !! pk = Some p -> stock p = 0 -> is_available p = false.

Definition same_stores (w w' : world) : Prop :=
  phones w' = phones w /\ orders w' = orders w.

(** The five responses of [create_order]. *)
Definition error_response (e : exn) : JsonResponse :=
  {| body := [("success", OBool false);
              ("message", OText [Lit "Error creating order: "; StrOf e])];
     status_code := 500 |}.

Definition all_fields_required : JsonResponse :=
  {| body := [("success", OBool false); ("message", OText [Lit "All fields are required"])];
     status_code := 400 |}.

Definition phone_not_found : JsonResponse :=
  {| body := [("success", OBool false);
              ("message", OText [Lit "Phone not found or not available"])];
     status_code := 404 |}.

Definition insufficient_stock (n : Z) : JsonResponse :=
  {| body := [("success", OBool false);
              ("message", OText [Lit "Only "; Int n; Lit " units available in stock"])];
     status_code := 400 |}.

Definition order_placed (id : Z) (total : decimal) : JsonResponse :=
  {| body := [("success", OBool true);
              ("message", OText [Lit "Order placed successfully!"]);
              ("order_id", OInt id);
              ("total_price_php", OFloat (float_of_decimal total))];
     status_code := 200 |}.

(** What the handler answers when the lookup of the phone raises. *)
Definition lookup_failed (e : exn) : JsonResponse :=
  match e with
  | DoesNotExist => phone_not_found
  | _ => error_response e
  end.

Definition field_of (items : list (string * json)) (key : string) : json :=
  default JNull (assoc key items).

Definition required_fields : list string :=
  ["phone_id"; "customer_name"; "customer_email"; "customer_phone"; "shipping_address"].

(** The order row a placement inserts, and the phone row it writes back. *)
Definition new_order (w : world) (items : list (string * json)) (pk q : Z) (p : Phone)
  : Order :=
  {| order_id := next_order_id (orders w);
     customer_name := to_text (field_of items "customer_name");
     customer_email := to_text (field_of items "customer_email");
     customer_phone := to_text (field_of items "customer_phone");
     phone := pk;
     quantity := q;
     total_price_php := dec_mul_int (price_php p) q;
     shipping_address := to_text (field_of items "shipping_address");
     status := "pending" |}.

Definition sold (q : Z) (p : Phone) : Phone :=
  let p' := set_stock (stock p - q) p in
  if stock p' =? 0 then set_is_available false p' else p'.

Definition with_order (o : Order) (w : world) : world :=
  {| phones := phones w; orders := orders w ++ [o]; sent := sent w |}.

Definition with_phone (pk : Z) (p : Phone) (w : world) : world :=
  {| phones := <[pk := p]> (phones w); orders := orders w; sent := sent w |}.

(** A request past validation, from the lookup of the phone on. *)
Definition place (E : env) (items : list (string * json)) (pk q : Z) (w : world)
  : outcome JsonResponse * world :=
  match db_fault E OpGet with
  | Some e => (Ok (lookup_failed e), w)
  | None =>
      match phones w !! pk with
      | None => (Ok phone_not_found, w)
      | Some p =>
          if is_available p then
            if stock p <? q then (Ok (insufficient_stock (stock p)), w)
            else
              match db_fault E OpCreate with
              | Some e => (Ok (error_response e), w)
              | None =>
                  let o := new_order w items pk q p in
                  match db_fault E OpSave with
                  | Some e => (Ok (error_response e), with_order o w)
                  | None =>
                      (Ok (order_placed (order_id o) (total_price_php o)),
                       with_phone pk (sold q p) (with_order o w))
                  end
              end
          else (Ok phone_not_found, w)
      end
  end.

(** How many of the responses report success. *)
Definition is_success (o : outcome JsonResponse) : bool :=
  match o with
  | Ok r => succeeded r
  | Raise _ => false
  end.

Definition successes (rs : list (outcome JsonResponse)) : nat :=
  length (List.filter is_success rs).

Definition failures (rs : list (outcome JsonResponse)) : nat :=
  length (List.filter (fun o => negb (is_success o)) rs).

(** ** A shop to compute with *)

Definition galaxy : Phone :=
  {| name := "Galaxy A15"; brand := "Samsung"; model := "A15";
     price_php := Dec false 2599900 (-2);
     description := "6.5 inch display";
     stock := 3; is_available := true |}.

Definition shop : world := {| phones := {[ 1 := galaxy ]}; orders := []; sent := [] |}.

Definition order_items (phone_id quantity : json) : list (string * json) :=
  [("phone_id", phone_id); ("quantity", quantity);
   ("customer_name", JStr "Ana Cruz"); ("customer_email", JStr "ana@example.com");
   ("customer_phone", JStr "09171234567"); ("shipping_address", JStr "Quezon City")].

Definition order_for (pk q : Z) : request_body := Json (JObj (order_items (JInt pk) (JInt q))).

(** An environment in which nothing fails, and one whose service is down. *)
Definition calm : env :=
  {| OPENROUTER_API_KEY := "sk-test"; db_fault := no_fault;
     openrouter := fun _ =>
       Ok (JObj [("choices",
                  JArr [JObj [("message", JObj [("content", JStr "Hello!")])]])]);
     slices_hashable := false |}.

Definition save_fails : env :=
  {| OPENROUTER_API_KEY := "sk-test";
     db_fault := fun op => match op with OpSave => Some DatabaseError | _ => None end;
     openrouter := fun _ => Raise RequestException;
     slices_hashable := true |}.

(** A shop with a large stock of an expensive phone. *)
Definition flagship : Phone :=
  {| name := "Fold Ultra"; brand := "Samsung"; model := "Fold";
     price_php := Dec false 999999999 (-2);
     description := "Foldable";
     stock := 10000001; is_available := true |}.

Definition wholesale : world :=
  {| phones := {[ 7 := flagship ]}; orders := []; sent := [] |}.

(** The shop down to its last unit, and a chat with twelve past turns. *)
Definition last_unit : world :=
  {| phones := {[ 1 := set_stock 1 galaxy ]}; orders := []; sent := [] |}.

Definition past_turn (n : Z) : list (string * json) :=
  [("role", JStr "user"); ("content", JInt n)].

Definition long_chat : list (string * json) :=
  [("message", JStr "Which phone has the best camera?");
   ("history", JArr (map (fun n => JObj (past_turn n)) [1; 2; 3; 4; 5; 6; 7; 8; 9; 10; 11; 12]))].

(** ** Notions used by the proofs *)

(** What one call does to the world: it is refused and changes nothing, or
    it inserts the order and then fails to save the phone, or it completes
    both writes. *)
Inductive effect (E : env) (request : request_body) (w : world)
  : JsonResponse -> world -> Prop :=
| Refused r :
    succeeded r = false -> status_code r <> 200 ->
    effect E request w r w
| Orphaned items pk q p e :
    request = Json (JObj items) -> places request pk q ->
    phones w !! pk = Some p -> is_available p = true -> q <= stock p ->
    db_fault E OpSave = Some e ->
    effect E request w (error_response e) (with_order (new_order w items pk q p) w)
| Completed items pk q p :
    request = Json (JObj items) -> places request pk q ->
    phones w !! pk = Some p -> is_available p = true -> q <= stock p ->
    db_fault E OpSave = None ->
    effect E request w
      (order_placed (order_id (new_order w items pk q p))
                    (total_price_php (new_order w items pk q p)))
      (with_phone pk (sold q p) (with_order (new_order w items pk q p) w)).

(** A computation that leaves both tables as they are. *)
Definition keeps_stores {A} (m : M A) : Prop :=
  forall w, same_stores w (m w).2.

(** One turn of the history as it is forwarded. *)
Definition turn (items : list (string * json)) : message :=
  {| role := OJson (default (JStr "user") (assoc "role" items));
     content := OJson (default (JStr "") (assoc "content" items)) |}.

(** The request [chat_api] sends for a list of messages. *)
Definition chat_post (E : env) (msgs : list message) : http_post :=
  {| url := "https://openrouter.ai/api/v1/chat/completions";
     headers := [("Authorization", String.append "Bearer " (OPENROUTER_API_KEY E));
                 ("Content-Type", "application/json")];
     body_json := {| payload_model := "openai/gpt-3.5-turbo";
                     messages := msgs;
                     temperature := float_of_decimal (Dec false 7 (-1));
                     max_tokens := 500 |};
     timeout := 30 |}.

(** The catalog lines of the system prompt, or what replaces them. *)
Definition context_of (o : outcome (list (Z * Phone))) : text :=
  match o with
  | Ok rows =>
      let lines := join [Lit newline] (map phone_line rows) in
      if text_empty lines then [Lit "No phones are currently available in stock."]
      else lines
  | Raise _ => [Lit "Phone database is currently unavailable."]
  end.

(** Three steps take a placement from the request to its answer. *)
Definition steps3 (E : env) (t : placement) (w : world) : placement * world :=
  let '(t1, w1) := step E t w in
  let '(t2, w2) := step E t1 w1 in
  step E t2 w2.

(** ** The claims that fail, as the specification words them *)

(** The claim as the specification words it: a successful call creates one
    order and updates one phone, and every other call leaves both tables as
    they were. *)
Definition atomic_placement : Prop :=
  forall E request w r w',
    create_order E request w = (Ok r, w') ->
    (succeeded r = true ->
       (exists o, orders w' = orders w ++ [o])
       /\ (exists pk p p', phones w !! pk = Some p /\ phones w' = <[pk := p']> (phones w)))
    /\ (succeeded r = false -> same_stores w w').

(** The claim as the specification words it: however the statements of two
    placements against one phone interleave, they do not both succeed when
    their quantities together exceed the stock. *)
Definition no_oversell : Prop :=
  forall E schedule r1 r2 pk q1 q2 w p a1 a2 w',
    places r1 pk q1 -> places r2 pk q2 ->
    phones w !! pk = Some p ->
    stock p < q1 + q2 ->
    run E schedule [Received r1; Received r2] w = ([Answered a1; Answered a2], w') ->
    ~ (succeeded a1 = true /\ succeeded a2 = true).

(** The claim as the specification words it: a request that lacks a field,
    or whose quantity is not a positive integer, is answered with 400. *)
Definition validation_rejects : Prop :=
  forall E items w r w',
    create_order E (Json (JObj items)) w = (Ok r, w') ->
    lacks_a_field items
    \/ ~ (exists q, py_int (default (JInt 1) (assoc "quantity" items)) = Ok q /\ 0 < q) ->
    status_code r = 400.

(** The claim as the specification words it: the stored total and the
    returned total both equal price times quantity exactly. *)
Definition exact_total : Prop :=
  forall E request pk q w p r w',
    places request pk q ->
    phones w !! pk = Some p ->
    create_order E request w = (Ok r, w') ->
    succeeded r = true ->
    exists o f v,
      last (orders w') = Some o
      /\ Qeq (dec_value (total_price_php o)) (dec_value (price_php p) * inject_Z q)
      /\ field "total_price_php" r = Some (OFloat f)
      /\ float_value f = Some v
      /\ Qeq v (dec_value (price_php p) * inject_Z q).

(** ** Notions used by the further properties *)

(** The stock recorded for a key (0 when there is no such phone), and the
    units ordered of it according to the order table. *)
Definition stock_of (pk : Z) (w : world) : Z :=
  from_option stock 0 (phones w !! pk).

Fixpoint ordered (pk : Z) (os : list Order) : Z :=
  match os with
  | [] => 0
  | o :: rest => (if phone o =? pk then quantity o else 0) + ordered pk rest
  end.

(** An environment in which the lookup of the phone fails. *)
Definition lookup_fails : env :=
  {| OPENROUTER_API_KEY := "sk-test";
     db_fault := fun op => match op with OpGet => Some DatabaseError | _ => None end;
     openrouter := fun _ => Raise RequestException;
     slices_hashable := true |}.

(** Requests served one after the other, each under the environment of its
    own time: a statement may fail for one request and not for the next. *)
Fixpoint serve_each (calls : list (env * request_body)) (w : world)
  : list (outcome JsonResponse) * world :=
  match calls with
  | [] => ([], w)
  | (E, request) :: rest =>
      let '(r, w') := create_order E request w in
      let '(rs, w'') := serve_each rest w' in
      (r :: rs, w'')
  end.

(** No phone has a negative stock. *)
Definition stock_nonneg (w : world) : Prop :=
  forall pk p, phones w !! pk = Some p -> 0 <= stock p.

(** Two rows that differ at most in stock and availability. *)
Definition same_listing (p p' : Phone) : Prop :=
  name p' = name p /\ brand p' = brand p /\ model p' = model p
  /\ price_php p' = price_php p /\ description p' = description p.

Definition is_object (v : json) : bool :=
  match v with
  | JObj _ => true
  | _ => false
  end.

(** The three [except] clauses of [chat_api]. *)
Definition chat_failure (e : exn) : JsonResponse :=
  match e with
  | RequestException =>
      {| body := [("response", OText [Lit "Sorry, I encountered an error connecting to the AI service. Please try again."]);
                  ("success", OBool false);
                  ("error", OText [StrOf e])];
         status_code := 500 |}
  | KeyError =>
      {| body := [("response", OText [Lit "Sorry, there was an error processing the response. Please try again."]);
                  ("success", OBool false);
                  ("error", OText [Lit "Missing key: "; StrOf e])];
         status_code := 500 |}
  | _ =>
      {| body := [("response", OText [Lit "Sorry, something went wrong. Please try again."]);
                  ("success", OBool false);
                  ("error", OText [StrOf e])];
         status_code := 500 |}
  end.

Definition invalid_reply : JsonResponse :=
  {| body := [("response", OText [Lit "Sorry, I received an invalid response from the AI service. Please try again."]);
              ("success", OBool false)];
     status_code := 500 |}.

(** What [chat_api] makes of the decoded reply of the service. *)
Definition read_reply (result : json) : outcome JsonResponse :=
  match py_contains "choices" result with
  | Raise e => Raise e
  | Ok has_choices =>
      match (if negb has_choices then Ok true
             else match py_getitem result "choices" with
                  | Ok choices => py_len_is_zero choices
                  | Raise e => Raise e
                  end) with
      | Raise e => Raise e
      | Ok true => Ok invalid_reply
      | Ok false =>
          match py_getitem result "choices" with
          | Raise e => Raise e
          | Ok choices =>
              match py_first choices with
              | Raise e => Raise e
              | Ok choice =>
                  match py_getitem choice "message" with
                  | Raise e => Raise e
                  | Ok msg =>
                      match py_getitem msg "content" with
                      | Raise e => Raise e
                      | Ok ai_message =>
                          Ok {| body := [("response", OJson ai_message);
                                         ("success", OBool true)];
                                status_code := 200 |}
                      end
                  end
              end
          end
      end
  end.

Definition chat_reply (o : outcome json) : JsonResponse :=
  match o with
  | Raise e => chat_failure e
  | Ok result =>
      match read_reply result with
      | Ok r => r
      | Raise e => chat_failure e
      end
  end.

(** The request [chat_api] sends for a message and the turns it keeps. *)
Definition forwarded (E : env) (w : world) (user_message : json)
    (objs : list (list (string * json))) : http_post :=
  chat_post E
    ({| role := OStr "system";
        content := OText (system_prompt (context_of (Phone_objects_filter E w).1)) |}
     :: map turn objs
     ++ [{| role := OStr "user"; content := OJson user_message |}]).

(** Why the history of a chat request cannot be forwarded, if so. *)
Definition history_error (slices_hashable : bool) (h : json) : option exn :=
  match py_last10 slices_hashable h with
  | Raise e => Some e
  | Ok xs => if forallb is_object xs then None else Some AttributeError
  end.

(** A computation that changes nothing but the log of requests sent, to
    which it adds at most [n]. *)
Definition sends_within (n : nat) {A} (m : M A) : Prop :=
  forall w, exists posts,
    (length posts <= n)%nat
    /\ (m w).2 = {| phones := phones w; orders := orders w; sent := sent w ++ posts |}.

(** A first message without history, and two services that answer with
    something other than a completion. *)
Definition hello : list (string * json) := [("message", JStr "Hello")].

Definition no_choices : env :=
  {| OPENROUTER_API_KEY := "sk-test"; db_fault := no_fault;
     openrouter := fun _ => Ok (JObj [("error", JStr "rate limited")]);
     slices_hashable := false |}.

Definition no_content : env :=
  {| OPENROUTER_API_KEY := "sk-test"; db_fault := no_fault;
     openrouter := fun _ =>
       Ok (JObj [("choices", JArr [JObj [("message", JObj [("role", JStr "assistant")])]])]);
     slices_hashable := true |}.

(** A placement in flight never holds more than the stock it has read. *)
Definition within_stock (t : placement) : Prop :=
  match t with
  | Loaded _ p q _ _ _ _ => q <= stock p
  | Inserted _ p q _ _ => q <= stock p
  | _ => True
  end.

(** * Properties *)

(** ** The runtime model on examples *)

(** The identifier of the next order is above every identifier in the
    table, also where the table has gaps. *)
Lemma next_order_id_fresh os o :
  In o os -> order_id o < next_order_id os.
Proof.
  unfold next_order_id. induction os as [|o' os IH]; simpl; [intros []|].
  intros [->|Hin]; [lia|]. specialize (IH Hin). lia.
Qed.

Example next_order_id_examples :
  next_order_id [] = 1
  /\ next_order_id (map (fun i => {| order_id := i; customer_name := Text "Ana";
                                     customer_email := Text "ana@example.com";
                                     customer_phone := Text "0917"; phone := 1;
                                     quantity := 1;
                                     total_price_php := Dec false 2599900 (-2);
                                     shipping_address := Text "Cebu";
                                     status := "pending" |}) [2; 5; 3]) = 6.
Proof. split; reflexivity. Qed.

Example int_examples :
  map int_of_string ["12"; " 12 "; "+12"; "-12"; "1_000"; "007"]
  = [Some 12; Some 12; Some 12; Some (-12); Some 1000; Some 7]
  /\ map int_of_string ["_1"; "1_"; "1__0"; ""; "  "; "+"; "0x10"; "1.5"; "+-1"; "- 1"; "1 2"; "abc"]
     = repeat None 12.
Proof. split; reflexivity. Qed.

Example float_examples :
  float_of_decimal (Dec false 2599999 (-2)) = S754_finite false 0x1963ff5c28f5c3 (14 - 52)
  /\ float_of_decimal (Dec false 5199800 (-2)) = S754_finite false 0x1963c000000000 (15 - 52)
  /\ float_of_decimal (Dec false 7 (-1)) = S754_finite false 0x16666666666666 (-1 - 52)
  /\ float_of_decimal (Dec false 12345678901234567890123456789 (-2))
     = S754_finite false 0x1987bf7c563caa (86 - 52)
  /\ float_of_decimal (Dec false 25 (-321)) = S754_finite false 0x13c4 (-1074)
  /\ float_of_decimal (Dec false 17976931348623157 292)
     = S754_finite false 0x1fffffffffffff (1023 - 52)
  /\ float_of_decimal (Dec false 17976931348623159 292) = S754_infinity false
  /\ float_of_decimal (Dec false 10000000989999999 (-2))
     = S754_finite false 0x16bcc44453f7ff (46 - 52)
  /\ float_of_decimal (Dec true 0 (-2)) = S754_zero true.
Proof. repeat split; vm_compute; reflexivity. Qed.

Example decimal_examples :
  dec_mul_int (Dec false 2599900 (-2)) 2 = Dec false 5199800 (-2)
  /\ dec_mul_int (Dec false 0 (-2)) (-1) = Dec true 0 (-2)
  /\ dec_mul_int (Dec false 1 (-2)) (10 ^ 29 + 5) = Dec false (10 ^ 27) 0
  /\ dec_mul_int (Dec false 999 (-2)) (10 ^ 27 + 1) = Dec false 9990000000000000000000000010 0.
Proof. repeat split; vm_compute; reflexivity. Qed.

(** ** Evaluating [create_order] *)

Lemma create_order_object E items w :
  create_order E (Json (JObj items)) w =
  match py_int (default (JInt 1) (assoc "quantity" items)) with
  | Raise e => (Ok (error_response e), w)
  | Ok q =>
      if negb (forallb truthy (map (field_of items) required_fields))
      then (Ok all_fields_required, w)
      else
        match py_int (field_of items "phone_id") with
        | Raise e => (Ok (lookup_failed e), w)
        | Ok pk => place E items pk q w
        end
  end.
Proof.
  cbv [create_order try_except bind lift ret raise json_loads py_get
       Phone_objects_get Order_objects_create Phone_save execute field_of default
       new_order map required_fields place with_order with_phone sold phones orders sent].
  destruct (assoc "phone_id" items), (assoc "quantity" items),
    (assoc "customer_name" items), (assoc "customer_email" items),
    (assoc "customer_phone" items), (assoc "shipping_address" items);
  cbv beta iota;
  (destruct (py_int _) as [q|]; [|reflexivity]);
  (destruct (negb (forallb truthy _)); [reflexivity|]);
  (destruct (py_int _) as [pk|[]]; try reflexivity);
  (destruct (db_fault E OpGet) as [[]|]; try reflexivity);
  destruct w as [ps os ss]; cbv beta iota;
  (destruct (ps !! pk) as [p|]; [|reflexivity]);
  (destruct (is_available p); [|reflexivity]);
  (destruct (stock p <? q); [reflexivity|]);
  (destruct (db_fault E OpCreate) as [|]; [reflexivity|]);
  (destruct (db_fault E OpSave) as [|]; reflexivity).
Qed.

Lemma create_order_not_object E request w :
  (forall items, request <> Json (JObj items)) ->
  exists e, create_order E request w = (Ok (error_response e), w).
Proof.
  intros Hno. destruct request as [|data].
  - exists JSONDecodeError. reflexivity.
  - destruct data; try (exists AttributeError; reflexivity).
    exfalso. eapply Hno. reflexivity.
Qed.

Lemma forallb_required items :
  forallb truthy (map (field_of items) required_fields) = true <->
  Forall (fun key => truthy (default JNull (assoc key items)) = true) required_fields.
Proof.
  unfold required_fields, field_of. simpl. rewrite !andb_true_iff.
  split.
  - intros (?&?&?&?&?&_). repeat constructor; assumption.
  - intros H. repeat (apply Forall_cons in H as [? H]). tauto.
Qed.

Lemma create_order_places E request pk q w :
  places request pk q ->
  exists items, request = Json (JObj items)
    /\ create_order E request w = place E items pk q w.
Proof.
  intros (items & -> & Hq & Hpk & Hall). exists items. split; [reflexivity|].
  rewrite create_order_object, Hq.
  apply forallb_required in Hall. rewrite Hall. simpl.
  unfold field_of. rewrite Hpk. reflexivity.
Qed.

Lemma places_order_for pk q : pk <> 0 -> places (order_for pk q) pk q.
Proof.
  intros Hpk. exists (order_items (JInt pk) (JInt q)).
  repeat split; try reflexivity.
  repeat constructor. simpl. apply negb_true_iff, Z.eqb_neq, Hpk.
Qed.

Lemma places_unique request pk q pk' q' :
  places request pk q -> places request pk' q' -> pk' = pk /\ q' = q.
Proof.
  intros (items & -> & Hq & Hpk & _) (items' & Heq & Hq' & Hpk' & _).
  injection Heq as <-. split; congruence.
Qed.

Lemma lookup_failed_refused E request w e :
  effect E request w (lookup_failed e) w.
Proof. destruct e; constructor; (reflexivity || discriminate). Qed.

Lemma place_effect E items pk q w :
  places (Json (JObj items)) pk q ->
  exists r w', place E items pk q w = (Ok r, w')
    /\ effect E (Json (JObj items)) w r w'.
Proof.
  intros Hplaces. unfold place.
  destruct (db_fault E OpGet) as [e|].
  { eexists _, _. split; [reflexivity|]. apply lookup_failed_refused. }
  destruct (phones w !! pk) as [p|] eqn:Hp.
  2:{ eexists _, _. split; [reflexivity|]. constructor; (reflexivity || discriminate). }
  destruct (is_available p) eqn:Hav.
  2:{ eexists _, _. split; [reflexivity|]. constructor; (reflexivity || discriminate). }
  destruct (stock p <? q) eqn:Hlt.
  { eexists _, _. split; [reflexivity|]. constructor; (reflexivity || discriminate). }
  apply Z.ltb_ge in Hlt.
  destruct (db_fault E OpCreate) as [e|].
  { eexists _, _. split; [reflexivity|]. constructor; (reflexivity || discriminate). }
  destruct (db_fault E OpSave) as [e|] eqn:Hsave.
  - eexists _, _. split; [reflexivity|]. eapply Orphaned; eauto.
  - eexists _, _. split; [reflexivity|]. eapply Completed; eauto.
Qed.

Lemma create_order_effect E request w :
  exists r w', create_order E request w = (Ok r, w') /\ effect E request w r w'.
Proof.
  destruct request as [|data].
  { eexists _, _. split; [reflexivity|]. constructor; (reflexivity || discriminate). }
  destruct data;
    try (eexists _, _; split; [reflexivity|]; constructor; (reflexivity || discriminate)).
  rewrite create_order_object.
  destruct (py_int (default (JInt 1) (assoc "quantity" items))) as [q|e] eqn:Hq.
  2:{ eexists _, _. split; [reflexivity|]. constructor; (reflexivity || discriminate). }
  destruct (forallb truthy (map (field_of items) required_fields)) eqn:Hall; simpl.
  2:{ eexists _, _. split; [reflexivity|]. constructor; (reflexivity || discriminate). }
  destruct (py_int (field_of items "phone_id")) as [pk|e] eqn:Hpk.
  2:{ eexists _, _. split; [reflexivity|]. apply lookup_failed_refused. }
  apply place_effect. exists items. repeat split; try assumption.
  apply forallb_required, Hall.
Qed.

(** The handler answers every request: no exception leaves it. *)
Lemma create_order_answers E request w :
  exists r, (create_order E request w).1 = Ok r.
Proof.
  destruct (create_order_effect E request w) as (r & w' & Heq & _).
  exists r. rewrite Heq. reflexivity.
Qed.

Lemma stock_sold q p : stock (sold q p) = stock p - q.
Proof. unfold sold. simpl. destruct (stock p - q =? 0); reflexivity. Qed.

Lemma is_available_sold q p :
  is_available (sold q p) = if stock p - q =? 0 then false else is_available p.
Proof. unfold sold. simpl. destruct (stock p - q =? 0); reflexivity. Qed.

(** A call that reports success has completed both writes for the phone and
    the quantity of its request. *)
Lemma completed_placement E request pk q w p r w' :
  places request pk q ->
  phones w !! pk = Some p ->
  create_order E request w = (Ok r, w') ->
  succeeded r = true ->
  q <= stock p /\ is_available p = true
  /\ exists items,
       r = order_placed (order_id (new_order w items pk q p))
                        (total_price_php (new_order w items pk q p))
       /\ w' = with_phone pk (sold q p) (with_order (new_order w items pk q p) w).
Proof.
  intros Hplaces Hp Hrun Hok.
  destruct (create_order_effect E request w) as (r0 & w0 & Heq & Heff).
  rewrite Hrun in Heq. injection Heq as <- <-.
  destruct Heff as [r Hfail _ | items pk' q' p' e _ _ _ _ _ _
                   | items pk' q' p' _ Hplaces' Hp' Hav Hle _].
  - congruence.
  - discriminate Hok.
  - destruct (places_unique _ _ _ _ _ Hplaces Hplaces') as [-> ->].
    assert (p' = p) as -> by congruence.
    split; [assumption|]. split; [assumption|].
    exists items. split; reflexivity.
Qed.

(** A failed call that has changed the order table is one whose insert
    went through and whose [phone.save()] raised. *)
Lemma place_failure E items pk q w r w' :
  place E items pk q w = (Ok r, w') ->
  succeeded r = false ->
  orders w' = orders w
  \/ exists e p,
       phones w !! pk = Some p /\ is_available p = true /\ q <= stock p
       /\ db_fault E OpGet = None /\ db_fault E OpCreate = None
       /\ db_fault E OpSave = Some e
       /\ r = error_response e
       /\ w' = with_order (new_order w items pk q p) w.
Proof.
  unfold place. intros Hrun Hfail.
  destruct (db_fault E OpGet) as [e|] eqn:Hget;
    [injection Hrun as <- <-; left; reflexivity|].
  destruct (phones w !! pk) as [p|] eqn:Hp;
    [|injection Hrun as <- <-; left; reflexivity].
  destruct (is_available p) eqn:Hav;
    [|injection Hrun as <- <-; left; reflexivity].
  destruct (stock p <? q) eqn:Hlt;
    [injection Hrun as <- <-; left; reflexivity|].
  apply Z.ltb_ge in Hlt.
  destruct (db_fault E OpCreate) as [e|] eqn:Hcreate;
    [injection Hrun as <- <-; left; reflexivity|].
  destruct (db_fault E OpSave) as [e|] eqn:Hsave; injection Hrun as <- <-.
  - right. exists e, p. repeat split; assumption.
  - discriminate Hfail.
Qed.

Lemma create_order_failure E request w r w' :
  create_order E request w = (Ok r, w') ->
  succeeded r = false ->
  orders w' = orders w
  \/ exists e items pk q p,
       request = Json (JObj items) /\ places request pk q
       /\ phones w !! pk = Some p /\ is_available p = true /\ q <= stock p
       /\ db_fault E OpGet = None /\ db_fault E OpCreate = None
       /\ db_fault E OpSave = Some e
       /\ r = error_response e
       /\ w' = with_order (new_order w items pk q p) w.
Proof.
  intros Hrun Hfail.
  destruct request as [|data].
  { injection Hrun as <- <-. left. reflexivity. }
  destruct data; try (injection Hrun as <- <-; left; reflexivity).
  rewrite create_order_object in Hrun.
  destruct (py_int (default (JInt 1) (assoc "quantity" items))) as [q|e] eqn:Hq;
    [|injection Hrun as <- <-; left; reflexivity].
  destruct (forallb truthy (map (field_of items) required_fields)) eqn:Hall;
    simpl in Hrun; [|injection Hrun as <- <-; left; reflexivity].
  destruct (py_int (field_of items "phone_id")) as [pk|e] eqn:Hpk;
    [|injection Hrun as <- <-; left; reflexivity].
  destruct (place_failure E items pk q w r w' Hrun Hfail)
    as [Hsame | (e & p & Hp & Hav & Hle & Hget & Hcreate & Hsave & Hr & Hw)];
    [left; exact Hsame|].
  right. exists e, items, pk, q, p.
  split; [reflexivity|]. split; [|repeat split; assumption].
  exists items. repeat split; try assumption. apply forallb_required, Hall.
Qed.

(** Conversely, every request whose insert goes through and whose
    [phone.save()] raises leaves its order in the table. *)
Lemma orphaned_order E request pk q w p e :
  places request pk q ->
  phones w !! pk = Some p -> is_available p = true -> q <= stock p ->
  db_fault E OpGet = None -> db_fault E OpCreate = None ->
  db_fault E OpSave = Some e ->
  exists items,
    request = Json (JObj items)
    /\ create_order E request w
       = (Ok (error_response e), with_order (new_order w items pk q p) w).
Proof.
  intros Hplaces Hp Hav Hle Hget Hcreate Hsave.
  destruct (create_order_places E request pk q w Hplaces) as (items & Heq & ->).
  exists items. split; [exact Heq|].
  unfold place. rewrite Hget, Hp, Hav, Hcreate, Hsave.
  apply Z.ltb_ge in Hle. rewrite Hle. reflexivity.
Qed.

(** ** C1: what a call writes *)

(** C1, counterexample: when [phone.save()] raises, the order inserted just
    before stays in the table although the call fails with status 500 and
    the stock is not decremented. *)
Lemma orphan_order_counterexample : ~ atomic_placement.
Proof.
  intros H.
  assert (Hrun : create_order save_fails (order_for 1 2) shop
                 = (Ok (error_response DatabaseError),
                    with_order (new_order shop (order_items (JInt 1) (JInt 2)) 1 2 galaxy) shop))
    by (vm_compute; reflexivity).
  destruct (H _ _ _ _ _ Hrun) as [_ Hfail].
  destruct (Hfail eq_refl) as [_ Horders].
  discriminate Horders.
Qed.

(** C1, as amended: a successful call appends exactly one order and writes
    exactly one phone row, the one the order refers to; a failed call never
    changes the phone table, and it leaves the order table unchanged as
    well on every failure path but one: the request passed validation, its
    phone was found available with enough stock, the insert went through
    and [phone.save()] then raised. On that path, for every order of a
    positive quantity, the answer is status 500 and the inserted order (for
    that phone and quantity, with its total, pending) stays in the table
    without its stock decrement. The log of requests to the text-generation
    service is never touched. *)
Theorem create_order_writes E request w r w' :
  create_order E request w = (Ok r, w') ->
  sent w' = sent w
  /\ (succeeded r = true ->
        exists o pk p p',
          phones w !! pk = Some p /\ phone o = pk
          /\ orders w' = orders w ++ [o]
          /\ phones w' = <[pk := p']> (phones w))
  /\ (succeeded r = false -> phones w' = phones w)
  /\ (succeeded r = false ->
        orders w' = orders w
        \/ exists e pk q p o,
             places request pk q
             /\ phones w !! pk = Some p /\ is_available p = true /\ q <= stock p
             /\ db_fault E OpGet = None /\ db_fault E OpCreate = None
             /\ db_fault E OpSave = Some e
             /\ r = error_response e
             /\ phone o = pk /\ quantity o = q
             /\ total_price_php o = dec_mul_int (price_php p) q
             /\ status o = "pending"
             /\ orders w' = orders w ++ [o])
  /\ (forall e pk q p,
        places request pk q ->
        phones w !! pk = Some p -> is_available p = true ->
        0 < q -> q <= stock p ->
        db_fault E OpGet = None -> db_fault E OpCreate = None ->
        db_fault E OpSave = Some e ->
        r = error_response e
        /\ phones w' = phones w
        /\ exists o,
             phone o = pk /\ quantity o = q
             /\ total_price_php o = dec_mul_int (price_php p) q
             /\ status o = "pending"
             /\ orders w' = orders w ++ [o]).
Proof.
  intros Hrun.
  split; [|split; [|split; [|split]]].
  - destruct (create_order_effect E request w) as (r0 & w0 & Heq & Heff).
    rewrite Hrun in Heq. injection Heq as <- <-.
    destruct Heff; reflexivity.
  - intros Hok.
    destruct (create_order_effect E request w) as (r0 & w0 & Heq & Heff).
    rewrite Hrun in Heq. injection Heq as <- <-.
    destruct Heff as [r Hfail _ | items pk q p e _ _ _ _ _ _
                     | items pk q p _ _ Hp _ _ _].
    + congruence.
    + discriminate Hok.
    + exists (new_order w items pk q p), pk, p, (sold q p).
      repeat split; assumption.
  - intros Hfail.
    destruct (create_order_effect E request w) as (r0 & w0 & Heq & Heff).
    rewrite Hrun in Heq. injection Heq as <- <-.
    destruct Heff; try reflexivity. discriminate Hfail.
  - intros Hfail.
    destruct (create_order_failure E request w r w' Hrun Hfail)
      as [Hsame | (e & items & pk & q & p & _ & Hplaces & Hp & Hav & Hle
                   & Hget & Hcreate & Hsave & Hr & ->)];
      [left; exact Hsame|].
    right. exists e, pk, q, p, (new_order w items pk q p).
    repeat split; assumption.
  - intros e pk q p Hplaces Hp Hav _ Hle Hget Hcreate Hsave.
    destruct (orphaned_order E request pk q w p e Hplaces Hp Hav Hle Hget Hcreate Hsave)
      as (items & _ & Heq).
    rewrite Hrun in Heq. injection Heq as -> ->.
    split; [reflexivity|]. split; [reflexivity|].
    exists (new_order w items pk q p). repeat split; reflexivity.
Qed.

Lemma create_order_writes_witness :
  create_order save_fails (order_for 1 2) shop
  = (Ok (error_response DatabaseError),
     (create_order save_fails (order_for 1 2) shop).2)
  /\ sent (create_order save_fails (order_for 1 2) shop).2 = sent shop
  /\ exists o,
       phone o = 1 /\ quantity o = 2
       /\ total_price_php o = dec_mul_int (price_php galaxy) 2
       /\ status o = "pending"
       /\ orders (create_order save_fails (order_for 1 2) shop).2 = orders shop ++ [o].
Proof.
  assert (H : create_order save_fails (order_for 1 2) shop
              = (Ok (error_response DatabaseError),
                 (create_order save_fails (order_for 1 2) shop).2))
    by (vm_compute; reflexivity).
  split; [exact H|].
  destruct (create_order_writes save_fails (order_for 1 2) shop _ _ H)
    as (Hsent & _ & _ & _ & Hstays).
  split; [exact Hsent|].
  assert (Hplaces : places (order_for 1 2) 1 2)
    by (apply places_order_for; discriminate).
  assert (Hp : phones shop !! 1 = Some galaxy) by (vm_compute; reflexivity).
  assert (Hle : 2 <= stock galaxy) by (vm_compute; discriminate).
  exact (proj2 (proj2 (Hstays DatabaseError 1 2 galaxy Hplaces Hp eq_refl eq_refl Hle
                         eq_refl eq_refl eq_refl))).
Defined.

(** ** C3: validation *)

Lemma lacks_a_field_forallb items :
  lacks_a_field items ->
  forallb truthy (map (field_of items) required_fields) = false.
Proof.
  intros Hex.
  destruct (forallb truthy (map (field_of items) required_fields)) eqn:Hall;
    [|reflexivity].
  apply forallb_required in Hall.
  apply Exists_exists in Hex as (key & Hin & Hfalse).
  rewrite Forall_forall in Hall. specialize (Hall key Hin). congruence.
Qed.

(** C3, counterexample: a quantity that is not a number is converted before
    the fields are checked, and the [ValueError] is answered with 500. *)
Lemma bad_quantity_counterexample : ~ validation_rejects.
Proof.
  intros H.
  assert (Hrun : create_order calm (Json (JObj (order_items (JInt 1) (JStr "two")))) shop
                 = (Ok (error_response ValueError), shop))
    by (vm_compute; reflexivity).
  assert (Hbad : status_code (error_response ValueError) = 400).
  { apply (H _ _ _ _ _ Hrun). right. intros (q & Hq & _). discriminate Hq. }
  discriminate Hbad.
Qed.

(** C3, as amended: when one of the five fields is missing or empty, or the
    quantity (1 when omitted) does not convert to an integer, the call fails
    and changes nothing: with status 500 if the quantity does not convert,
    and otherwise with status 400 and the message "All fields are
    required". *)
Theorem validation_outcomes E items w :
  lacks_a_field items
  \/ (exists e, py_int (default (JInt 1) (assoc "quantity" items)) = Raise e) ->
  create_order E (Json (JObj items)) w
  = (Ok match py_int (default (JInt 1) (assoc "quantity" items)) with
        | Raise e => error_response e
        | Ok _ => all_fields_required
        end, w).
Proof.
  intros Hbad. rewrite create_order_object.
  destruct (py_int (default (JInt 1) (assoc "quantity" items))) as [q|e]; [|reflexivity].
  destruct Hbad as [Hlacks | [e He]]; [|discriminate He].
  rewrite (lacks_a_field_forallb _ Hlacks). reflexivity.
Qed.

Lemma validation_outcomes_witness :
  create_order calm
    (Json (JObj [("phone_id", JInt 1); ("customer_name", JStr "Ana Cruz");
                 ("customer_phone", JStr "09171234567");
                 ("shipping_address", JStr "Quezon City")])) shop
  = (Ok all_fields_required, shop).
Proof.
  apply (validation_outcomes calm
           [("phone_id", JInt 1); ("customer_name", JStr "Ana Cruz");
            ("customer_phone", JStr "09171234567");
            ("shipping_address", JStr "Quezon City")] shop).
  left. unfold lacks_a_field.
  apply Exists_cons_tl, Exists_cons_tl, Exists_cons_hd. reflexivity.
Defined.

(** ** C5: insufficient stock *)

(** C5: a request past validation for an available phone whose stock is
    below the quantity is answered with status 400 and the message
    "Only <stock> units available in stock", and the world is unchanged
    (the lookup of the phone itself not failing). *)
Theorem insufficient_stock_refused E request pk q w p :
  places request pk q ->
  db_fault E OpGet = None ->
  phones w !! pk = Some p ->
  is_available p = true ->
  stock p < q ->
  create_order E request w
  = (Ok {| body := [("success", OBool false);
                    ("message", OText [Lit "Only "; Int (stock p);
                                       Lit " units available in stock"])];
           status_code := 400 |}, w).
Proof.
  intros Hplaces Hget Hp Hav Hlt.
  destruct (create_order_places E request pk q w Hplaces) as (items & _ & ->).
  unfold place. rewrite Hget, Hp, Hav.
  apply Z.ltb_lt in Hlt. rewrite Hlt. reflexivity.
Qed.

Lemma insufficient_stock_refused_witness :
  create_order calm (order_for 1 5) shop
  = (Ok {| body := [("success", OBool false);
                    ("message", OText [Lit "Only "; Int 3;
                                       Lit " units available in stock"])];
           status_code := 400 |}, shop).
Proof.
  apply (insufficient_stock_refused calm (order_for 1 5) 1 5 shop galaxy).
  - apply places_order_for. discriminate.
  - reflexivity.
  - vm_compute. reflexivity.
  - reflexivity.
  - vm_compute. reflexivity.
Defined.

(** ** C4: the stock after a placement *)

(** C4: after a successful placement of quantity [q] against a phone of
    stock [s], the phone was available with [q <= s], its stock is [s - q],
    and it is unavailable exactly when that stock is 0. *)
Theorem stock_after_placement E request pk q w p r w' :
  places request pk q ->
  phones w !! pk = Some p ->
  create_order E request w = (Ok r, w') ->
  succeeded r = true ->
  q <= stock p /\ is_available p = true
  /\ exists p', phones w' !! pk = Some p'
       /\ stock p' = stock p - q
       /\ (is_available p' = false <-> stock p' = 0).
Proof.
  intros Hplaces Hp Hrun Hok.
  destruct (completed_placement E request pk q w p r w' Hplaces Hp Hrun Hok)
    as (Hle & Hav & items & _ & ->).
  split; [assumption|]. split; [assumption|].
  exists (sold q p). simpl. rewrite lookup_insert_eq.
  split; [reflexivity|]. rewrite stock_sold. split; [reflexivity|].
  rewrite is_available_sold, Hav.
  destruct (stock p - q =? 0) eqn:Hz.
  - apply Z.eqb_eq in Hz. tauto.
  - apply Z.eqb_neq in Hz. split; [discriminate | contradiction].
Qed.

Lemma stock_after_placement_witness :
  places (order_for 1 2) 1 2
  /\ exists p', phones (create_order calm (order_for 1 2) shop).2 !! 1 = Some p'
       /\ stock p' = stock galaxy - 2
       /\ (is_available p' = false <-> stock p' = 0).
Proof.
  assert (Hplaces : places (order_for 1 2) 1 2)
    by (apply places_order_for; discriminate).
  split; [exact Hplaces|].
  refine (proj2 (proj2 (stock_after_placement calm (order_for 1 2) 1 2 shop galaxy
            (order_placed 1 (Dec false 5199800 (-2)))
            (create_order calm (order_for 1 2) shop).2 Hplaces _ _ _))).
  - vm_compute. reflexivity.
  - vm_compute. reflexivity.
  - reflexivity.
Defined.

(** ** Handlers that only read the tables *)

Lemma keeps_ret {A} (a : A) : keeps_stores (ret a).
Proof. intros w. split; reflexivity. Qed.

Lemma keeps_raise {A} e : keeps_stores (@raise A e).
Proof. intros w. split; reflexivity. Qed.

Lemma keeps_lift {A} (o : outcome A) : keeps_stores (lift o).
Proof. intros w. split; reflexivity. Qed.

Lemma same_stores_trans w1 w2 w3 :
  same_stores w1 w2 -> same_stores w2 w3 -> same_stores w1 w3.
Proof. unfold same_stores. intros [-> ->] [-> ->]. split; reflexivity. Qed.

Lemma keeps_bind {A B} (m : M A) (k : A -> M B) :
  keeps_stores m -> (forall a, keeps_stores (k a)) -> keeps_stores (bind m k).
Proof.
  intros Hm Hk w. unfold bind. specialize (Hm w).
  destruct (m w) as [[a|e] w1]; simpl in *; [|assumption].
  eapply same_stores_trans; [exact Hm | apply Hk].
Qed.

Lemma keeps_try_except {A} (m : M A) (h : exn -> M A) :
  keeps_stores m -> (forall e, keeps_stores (h e)) -> keeps_stores (try_except m h).
Proof.
  intros Hm Hh w. unfold try_except. specialize (Hm w).
  destruct (m w) as [[a|e] w1]; simpl in *; [assumption|].
  eapply same_stores_trans; [exact Hm | apply Hh].
Qed.

Lemma keeps_if {A} (b : bool) (m1 m2 : M A) :
  keeps_stores m1 -> keeps_stores m2 -> keeps_stores (if b then m1 else m2).
Proof. destruct b; auto. Qed.

Lemma keeps_execute E op : keeps_stores (execute E op).
Proof. unfold execute. destruct (db_fault E op); [apply keeps_raise | apply keeps_ret]. Qed.

Lemma keeps_filter E : keeps_stores (Phone_objects_filter E).
Proof.
  unfold Phone_objects_filter. apply keeps_bind; [apply keeps_execute|].
  intros _ w. split; reflexivity.
Qed.

Lemma keeps_post E r : keeps_stores (requests_post E r).
Proof. intros w. split; reflexivity. Qed.

Lemma keeps_json_loads b : keeps_stores (json_loads b).
Proof. destruct b; [apply keeps_raise | apply keeps_ret]. Qed.

Lemma keeps_mapM {A B} (f : A -> M B) xs :
  (forall x, keeps_stores (f x)) -> keeps_stores (mapM f xs).
Proof.
  intros Hf. induction xs as [|x xs IH]; simpl; [apply keeps_ret|].
  apply keeps_bind; [apply Hf|]. intros y.
  apply keeps_bind; [apply IH|]. intros ys. apply keeps_ret.
Qed.

Create HintDb keeps.
#[local] Hint Resolve keeps_ret keeps_raise keeps_lift keeps_execute keeps_filter
  keeps_post keeps_json_loads : keeps.

Ltac keeps_step :=
  first
    [ solve [auto with keeps]
    | apply keeps_mapM; intros ?
    | apply keeps_bind; [|intros ?]
    | apply keeps_try_except; [|intros ?]
    | apply keeps_if ].

Lemma keeps_history_message msg : keeps_stores (history_message msg).
Proof. unfold history_message. repeat keeps_step. Qed.

Lemma chat_api_keeps_stores E request : keeps_stores (chat_api E request).
Proof.
  unfold chat_api.
  apply keeps_try_except.
  - pose proof keeps_history_message. repeat keeps_step.
  - intros e. destruct e; apply keeps_ret.
Qed.

Lemma phones_api_keeps_world E w : (phones_api E w).2 = w.
Proof.
  unfold phones_api, Phone_objects_filter, execute, bind, ret, raise.
  destruct (db_fault E OpFilter); reflexivity.
Qed.

(** ** C7: the invariant of the data model *)

Lemma stock_invariant_same w w' :
  phones w' = phones w -> stock_invariant w -> stock_invariant w'.
Proof. unfold stock_invariant. intros ->. auto. Qed.

(** C7: if no phone without stock is available before a call of
    [create_order], [phones_api] or [chat_api], none is afterwards,
    whether the call succeeds or fails. *)
Theorem stock_invariant_preserved E request w :
  stock_invariant w ->
  stock_invariant (create_order E request w).2
  /\ stock_invariant (phones_api E w).2
  /\ stock_invariant (chat_api E request w).2.
Proof.
  intros Hinv. split; [|split].
  - destruct (create_order_effect E request w) as (r & w' & -> & Heff). simpl.
    destruct Heff as [r _ _ | items pk q p e _ _ _ _ _ _
                     | items pk q p _ _ Hp Hav _ _].
    + assumption.
    + eapply stock_invariant_same; [|exact Hinv]. reflexivity.
    + intros pk' p'. simpl. rewrite lookup_insert.
      destruct (decide (pk = pk')) as [->|Hne].
      * intros [= <-]. rewrite stock_sold, is_available_sold.
        intros ->. reflexivity.
      * apply Hinv.
  - rewrite phones_api_keeps_world. assumption.
  - eapply stock_invariant_same; [|exact Hinv].
    apply (chat_api_keeps_stores E request w).
Qed.

Lemma stock_invariant_shop : stock_invariant shop.
Proof.
  intros pk p. unfold shop. simpl.
  rewrite lookup_singleton.
  destruct (decide (1 = pk)); [|discriminate].
  intros [= <-]. discriminate.
Qed.

Lemma stock_invariant_preserved_witness :
  stock_invariant shop
  /\ stock_invariant (create_order calm (order_for 1 3) shop).2.
Proof.
  split; [exact stock_invariant_shop|].
  exact (proj1 (stock_invariant_preserved calm (order_for 1 3) shop stock_invariant_shop)).
Defined.

(** ** C8: the catalog query *)

(** C8: [phones_api] never changes the world, and, the query not failing,
    it answers with one entry per phone that is available and has positive
    stock, and with no other entry. *)
Theorem phones_api_lists_in_stock E w :
  db_fault E OpFilter = None ->
  (phones_api E w).2 = w
  /\ exists rows,
       (phones_api E w).1
       = Ok {| body := [("phones", OArr (map phone_entry rows))]; status_code := 200 |}
       /\ NoDup rows
       /\ forall pk p,
            (pk, p) ∈ rows
            <-> phones w !! pk = Some p /\ is_available p = true /\ 0 < stock p.
Proof.
  intros Hok. split; [apply phones_api_keeps_world|].
  exists (map_to_list (filter in_stock (phones w))).
  split; [|split].
  - unfold phones_api, Phone_objects_filter, execute, bind, ret. rewrite Hok. reflexivity.
  - apply NoDup_map_to_list.
  - intros pk p. rewrite elem_of_map_to_list, map_lookup_filter_Some.
    unfold in_stock. simpl. tauto.
Qed.

Lemma phones_api_lists_in_stock_witness :
  (phones_api calm shop).2 = shop.
Proof.
  exact (proj1 (phones_api_lists_in_stock calm shop eq_refl)).
Defined.

(** ** C10: a chat request without a message *)

(** C10: a chat request whose [message] is missing or empty is answered
    with status 400 and [success: False]; nothing is sent to the
    text-generation service and no table changes. *)
Theorem chat_without_message E items w :
  truthy (default (JStr "") (assoc "message" items)) = false ->
  chat_api E (Json (JObj items)) w
  = (Ok {| body := [("response", OText [Lit "Please provide a message."]);
                    ("success", OBool false)];
           status_code := 400 |}, w).
Proof.
  intros Hempty.
  cbv [chat_api try_except bind lift ret json_loads py_get].
  destruct (assoc "message" items) as [v|]; simpl in Hempty; cbv beta iota.
  - rewrite Hempty. reflexivity.
  - reflexivity.
Qed.

Lemma chat_without_message_witness :
  chat_api calm (Json (JObj [("message", JStr ""); ("history", JArr [])])) shop
  = (Ok {| body := [("response", OText [Lit "Please provide a message."]);
                    ("success", OBool false)];
           status_code := 400 |}, shop).
Proof.
  apply (chat_without_message calm [("message", JStr ""); ("history", JArr [])] shop).
  reflexivity.
Defined.

(** ** C9: the history forwarded to the text-generation service *)

Lemma filter_keeps_world E w : (Phone_objects_filter E w).2 = w.
Proof.
  unfold Phone_objects_filter, execute, bind, ret, raise.
  destruct (db_fault E OpFilter); reflexivity.
Qed.

Lemma mapM_turns objs w :
  mapM history_message (map JObj objs) w = (Ok (map turn objs), w).
Proof.
  induction objs as [|items objs IH]; [reflexivity|].
  simpl. unfold bind at 1.
  assert (Hhead : history_message (JObj items) w = (Ok (turn items), w)).
  { unfold history_message, turn, bind, lift, ret, py_get, default.
    destruct (assoc "role" items), (assoc "content" items); reflexivity. }
  rewrite Hhead. unfold bind at 1. rewrite IH. reflexivity.
Qed.

Lemma last_n_suffix {A} n (xs : list A) :
  xs = take (length xs - n) xs ++ last_n n xs
  /\ length (last_n n xs) = Nat.min n (length xs).
Proof.
  unfold last_n. split.
  - symmetry. apply take_drop.
  - rewrite length_drop. lia.
Qed.

Ltac destruct_innermost :=
  match goal with
  | |- context [match ?x with _ => _ end] =>
      lazymatch x with
      | context [match _ with _ => _ end] => fail
      | _ => destruct x
      end
  end.

(** C9: for a chat request with a message and a history list of any length
    whose last ten turns are objects, exactly one request is sent to the
    text-generation service; its messages are the system prompt, then the
    last ten turns of the history (all of them when there are fewer), then
    the user's message. Older turns are not forwarded, and no table
    changes. *)
Theorem chat_forwards_recent_history E items w user_message hist objs :
  assoc "message" items = Some user_message ->
  truthy user_message = true ->
  py_get (JObj items) "history" (JArr []) = Ok (JArr hist) ->
  last_n 10 hist = map JObj objs ->
  exists phones_context older,
    (chat_api E (Json (JObj items)) w).2
    = {| phones := phones w; orders := orders w;
         sent := sent w ++
           [chat_post E
              ({| role := OStr "system"; content := OText (system_prompt phones_context) |}
               :: map turn objs
               ++ [{| role := OStr "user"; content := OJson user_message |}])] |}
    /\ hist = older ++ map JObj objs
    /\ length objs = Nat.min 10 (length hist).
Proof.
  intros Hmsg Htruthy Hhist Hlast.
  exists (context_of (Phone_objects_filter E w).1), (take (length hist - 10) hist).
  destruct (last_n_suffix 10 hist) as [Hsplit Hlen].
  rewrite Hlast in Hsplit, Hlen. rewrite length_map in Hlen.
  split; [|split; assumption].
  pose proof (filter_keeps_world E w) as Hw.
  destruct (Phone_objects_filter E w) as [o w0] eqn:Hfilter. simpl in Hw. subst w0.
  unfold py_get in Hhist.
  cbv [chat_api try_except bind lift ret raise json_loads py_get negb].
  rewrite Hmsg. cbv beta iota. rewrite Htruthy. cbv beta iota.
  rewrite Hfilter.
  destruct (assoc "history" items) as [v|]; injection Hhist as Hv;
    try subst v; cbv [py_last10]; try rewrite Hlast;
    try (destruct hist; [|discriminate Hv]);
    try (change (last_n 10 (@nil json)) with (@nil json) in Hlast;
         destruct objs; [|discriminate Hlast]; change (last_n 10 (@nil json)) with (map JObj []));
    destruct o as [rows|e0]; cbv beta iota;
    rewrite mapM_turns; cbv beta iota; cbv [requests_post];
    cbv [context_of fst];
    repeat first [ reflexivity | destruct_innermost ].
Qed.


Lemma chat_forwards_recent_history_witness :
  exists phones_context older,
    (chat_api calm (Json (JObj long_chat)) shop).2
    = {| phones := phones shop; orders := orders shop;
         sent := sent shop ++
           [chat_post calm
              ({| role := OStr "system"; content := OText (system_prompt phones_context) |}
               :: map turn (map past_turn [3; 4; 5; 6; 7; 8; 9; 10; 11; 12])
               ++ [{| role := OStr "user";
                      content := OJson (JStr "Which phone has the best camera?") |}])] |}
    /\ map (fun n => JObj (past_turn n)) [1; 2; 3; 4; 5; 6; 7; 8; 9; 10; 11; 12]
       = older ++ map JObj (map past_turn [3; 4; 5; 6; 7; 8; 9; 10; 11; 12])
    /\ length (map past_turn [3; 4; 5; 6; 7; 8; 9; 10; 11; 12])
       = Nat.min 10 (length (map (fun n => JObj (past_turn n))
                                 [1; 2; 3; 4; 5; 6; 7; 8; 9; 10; 11; 12])).
Proof.
  apply (chat_forwards_recent_history calm long_chat shop
           (JStr "Which phone has the best camera?")
           (map (fun n => JObj (past_turn n)) [1; 2; 3; 4; 5; 6; 7; 8; 9; 10; 11; 12])
           (map past_turn [3; 4; 5; 6; 7; 8; 9; 10; 11; 12])).
  - reflexivity.
  - reflexivity.
  - reflexivity.
  - reflexivity.
Defined.

(** ** C6: the total price *)

Lemma ndigits_aux_bound fuel : forall n (k : nat),
  (0 < k)%nat -> (n < 10 ^ N.of_nat k)%N -> ndigits_aux fuel n <= Z.of_nat k.
Proof.
  induction fuel as [|fuel IH]; intros n k Hk Hn; simpl; [lia|].
  destruct (n <? 10)%N eqn:Hsmall; [lia|].
  apply N.ltb_ge in Hsmall.
  destruct k as [|[|k]]; [lia| |].
  - change (10 ^ N.of_nat 1)%N with 10%N in Hn. lia.
  - assert (Hdiv : (n / 10 < 10 ^ N.of_nat (S k))%N).
    { apply N.Div0.div_lt_upper_bound.
      replace (N.of_nat (S (S k))) with (N.succ (N.of_nat (S k))) in Hn by lia.
      rewrite N.pow_succ_r' in Hn. exact Hn. }
    specialize (IH _ (S k) ltac:(lia) Hdiv). lia.
Qed.

Lemma dec_fix_small d : (dcoeff d < 10 ^ 28)%N -> dec_fix d = d.
Proof.
  intros Hsmall. unfold dec_fix.
  assert (Hle : ndigits (dcoeff d) <= context_prec).
  { unfold ndigits, context_prec.
    apply (ndigits_aux_bound _ _ 28%nat); [lia | exact Hsmall]. }
  apply Z.leb_le in Hle. rewrite Hle. reflexivity.
Qed.

Lemma dec_mul_int_exact d q :
  (dcoeff d * Z.abs_N q < 10 ^ 28)%N ->
  dec_mul_int d q = Dec (xorb (dsign d) (q <? 0)) (dcoeff d * Z.abs_N q) (dexp d).
Proof.
  intros Hsmall. unfold dec_mul_int, dec_mul, dec_of_int. simpl.
  rewrite dec_fix_small by exact Hsmall. rewrite Z.add_0_r. reflexivity.
Qed.

Lemma dec_signed_mul d q :
  dec_signed (Dec (xorb (dsign d) (q <? 0)) (dcoeff d * Z.abs_N q) (dexp d))
  = dec_signed d * q.
Proof.
  unfold dec_signed. simpl.
  rewrite N2Z.inj_mul, N2Z.inj_abs_N.
  destruct (dsign d), (q <? 0) eqn:Hq; simpl;
    [apply Z.ltb_lt in Hq | apply Z.ltb_ge in Hq
    | apply Z.ltb_lt in Hq | apply Z.ltb_ge in Hq]; nia.
Qed.

Lemma dec_value_mul d q :
  Qeq (dec_value (Dec (xorb (dsign d) (q <? 0)) (dcoeff d * Z.abs_N q) (dexp d)))
      (dec_value d * inject_Z q).
Proof.
  unfold dec_value. rewrite dec_signed_mul. simpl dexp.
  destruct (0 <=? dexp d).
  - unfold Qeq, Qmult, inject_Z. cbn [Qnum Qden]. lia.
  - unfold Qeq, Qmult, inject_Z. cbn [Qnum Qden]. rewrite Pos.mul_1_r. lia.
Qed.

(** C6, counterexample: 10000001 phones at 9999999.99 each. The stored total
    is 100000009899999.99, but the response carries [float(total_price)],
    the double [0x1.6bcc44453f7ffp+46], which is 100000009899999.984375 and
    is written to the JSON body as 100000009899999.98. *)
Lemma float_total_counterexample : ~ exact_total.
Proof.
  intros H.
  assert (Hplaces : places (order_for 7 10000001) 7 10000001)
    by (apply places_order_for; discriminate).
  assert (Hrun : create_order calm (order_for 7 10000001) wholesale
                 = (Ok (order_placed 1 (Dec false 10000000989999999 (-2))),
                    (create_order calm (order_for 7 10000001) wholesale).2))
    by (vm_compute; reflexivity).
  destruct (H calm _ 7 10000001 wholesale flagship _ _ Hplaces eq_refl Hrun eq_refl)
    as (o & f & v & _ & _ & Hfield & Hvalue & Hexact).
  vm_compute in Hfield. injection Hfield as <-.
  vm_compute in Hvalue. injection Hvalue as <-.
  vm_compute in Hexact. discriminate Hexact.
Qed.

(** C6, as amended: a successful placement stores one order whose total is
    the decimal product of price and quantity, equal to price times quantity
    exactly whenever that product has at most 28 significant digits (the
    precision of the decimal context); the response carries that total
    converted to a binary64 float. *)
Theorem total_price_stored E request pk q w p r w' :
  places request pk q ->
  phones w !! pk = Some p ->
  create_order E request w = (Ok r, w') ->
  succeeded r = true ->
  exists o,
    orders w' = orders w ++ [o]
    /\ total_price_php o = dec_mul_int (price_php p) q
    /\ field "total_price_php" r = Some (OFloat (float_of_decimal (total_price_php o)))
    /\ ((dcoeff (price_php p) * Z.abs_N q < 10 ^ 28)%N ->
        Qeq (dec_value (total_price_php o)) (dec_value (price_php p) * inject_Z q)).
Proof.
  intros Hplaces Hp Hrun Hok.
  destruct (completed_placement E request pk q w p r w' Hplaces Hp Hrun Hok)
    as (_ & _ & items & -> & ->).
  exists (new_order w items pk q p).
  split; [reflexivity|]. split; [reflexivity|]. split; [reflexivity|].
  intros Hsmall. simpl total_price_php.
  rewrite dec_mul_int_exact by exact Hsmall. apply dec_value_mul.
Qed.

Lemma total_price_stored_witness :
  places (order_for 1 2) 1 2
  /\ exists o,
       orders (create_order calm (order_for 1 2) shop).2 = orders shop ++ [o]
       /\ total_price_php o = dec_mul_int (price_php galaxy) 2
       /\ field "total_price_php" (order_placed 1 (Dec false 5199800 (-2)))
          = Some (OFloat (float_of_decimal (total_price_php o)))
       /\ ((dcoeff (price_php galaxy) * Z.abs_N 2 < 10 ^ 28)%N ->
           Qeq (dec_value (total_price_php o)) (dec_value (price_php galaxy) * inject_Z 2)).
Proof.
  assert (Hplaces : places (order_for 1 2) 1 2)
    by (apply places_order_for; discriminate).
  split; [exact Hplaces|].
  refine (total_price_stored calm (order_for 1 2) 1 2 shop galaxy
            (order_placed 1 (Dec false 5199800 (-2)))
            (create_order calm (order_for 1 2) shop).2 Hplaces _ _ _).
  - vm_compute. reflexivity.
  - vm_compute. reflexivity.
  - reflexivity.
Defined.

(** The scenario of the specification: 25999.00 times 2 is stored as
    51998.00 and returned as the float 51998.0, the stock goes from 3 to 1
    and the phone stays available; a second order of 2 is refused. *)
Example scenario :
  let '(r1, w1) := create_order calm (order_for 1 2) shop in
  let '(r2, w2) := create_order calm (order_for 1 2) w1 in
  r1 = Ok (order_placed 1 (Dec false 5199800 (-2)))
  /\ match float_value (float_of_decimal (Dec false 5199800 (-2))) with
     | Some v => Qeq v (inject_Z 51998)
     | None => False
     end
  /\ (stock <$> phones w1 !! 1) = Some 1
  /\ (is_available <$> phones w1 !! 1) = Some true
  /\ r2 = Ok (insufficient_stock 1)
  /\ w2 = w1.
Proof. vm_compute. repeat split; reflexivity. Qed.

(** ** C2: placements against the same phone *)

(** Run without interruption, the three steps are the handler. *)
Lemma steps3_create_order E request w :
  exists r,
    steps3 E (Received request) w = (Answered r, (create_order E request w).2)
    /\ (create_order E request w).1 = Ok r.
Proof.
  destruct request as [|data]; [eexists; split; reflexivity|].
  destruct data; try (eexists; split; reflexivity).
  cbv [steps3 step load insert_order save_phone create_order try_except bind lift ret
       raise json_loads py_get Phone_objects_get Order_objects_create Phone_save
       execute fst snd phones orders sent].
  destruct (assoc "phone_id" items), (assoc "quantity" items),
    (assoc "customer_name" items), (assoc "customer_email" items),
    (assoc "customer_phone" items), (assoc "shipping_address" items);
  cbv beta iota;
  (destruct (py_int _) as [q|]; [|eexists; split; reflexivity]);
  (destruct (negb (forallb truthy _)); [eexists; split; reflexivity|]);
  (destruct (py_int _) as [pk|[]]; try (eexists; split; reflexivity));
  (destruct (db_fault E OpGet) as [[]|]; try (eexists; split; reflexivity));
  destruct w as [ps os ss]; cbv beta iota;
  (destruct (ps !! pk) as [p|]; [|eexists; split; reflexivity]);
  (destruct (is_available p); [|eexists; split; reflexivity]);
  (destruct (stock p <? q); [eexists; split; reflexivity|]);
  (destruct (db_fault E OpCreate) as [|]; [eexists; split; reflexivity|]);
  (destruct (db_fault E OpSave) as [|]; eexists; split; reflexivity).
Qed.

(** The serial schedule of two placements is two calls of the handler. *)
Lemma run_serial E r1 r2 w :
  exists a1 a2,
    (create_order E r1 w).1 = Ok a1
    /\ (create_order E r2 (create_order E r1 w).2).1 = Ok a2
    /\ run E [0; 0; 0; 1; 1; 1]%nat [Received r1; Received r2] w
       = ([Answered a1; Answered a2], (create_order E r2 (create_order E r1 w).2).2).
Proof.
  destruct (steps3_create_order E r1 w) as (a1 & Hs1 & Ha1).
  destruct (steps3_create_order E r2 (create_order E r1 w).2) as (a2 & Hs2 & Ha2).
  exists a1, a2. split; [exact Ha1|]. split; [exact Ha2|].
  unfold steps3 in Hs1, Hs2. cbn [run lookup list_lookup].
  destruct (step E (Received r1) w) as [t1 w1].
  cbn [insert list_insert lookup list_lookup].
  destruct (step E t1 w1) as [t2 w2].
  cbn [insert list_insert lookup list_lookup].
  rewrite Hs1.
  cbn [insert list_insert lookup list_lookup].
  destruct (step E (Received r2) (create_order E r1 w).2) as [u1 v1].
  cbn [insert list_insert lookup list_lookup].
  destruct (step E u1 v1) as [u2 v2].
  cbn [insert list_insert lookup list_lookup].
  rewrite Hs2. reflexivity.
Qed.

(** C2, counterexample: two orders of one unit against a stock of one. Both
    requests read the phone before either writes it back; both pass the
    stock check, both insert their order and both succeed. *)
Lemma interleaved_oversell_counterexample : ~ no_oversell.
Proof.
  intros H.
  assert (Hplaces : places (order_for 1 1) 1 1) by (apply places_order_for; discriminate).
  assert (Hrun : run calm [0; 1; 0; 1; 0; 1]%nat
                   [Received (order_for 1 1); Received (order_for 1 1)] last_unit
                 = ([Answered (order_placed 1 (Dec false 2599900 (-2)));
                     Answered (order_placed 2 (Dec false 2599900 (-2)))],
                    (run calm [0; 1; 0; 1; 0; 1]%nat
                       [Received (order_for 1 1); Received (order_for 1 1)] last_unit).2))
    by (vm_compute; reflexivity).
  apply (H calm _ _ _ 1 1 1 last_unit (set_stock 1 galaxy) _ _ _ Hplaces Hplaces
           eq_refl eq_refl Hrun).
  split; reflexivity.
Qed.

Lemma successes_failures rs : (successes rs + failures rs = length rs)%nat.
Proof.
  unfold successes, failures.
  induction rs as [|r rs IH]; [reflexivity|].
  simpl. destruct (is_success r); simpl; lia.
Qed.

Lemma successes_cons o rs :
  successes (o :: rs) = if is_success o then S (successes rs) else successes rs.
Proof. unfold successes. simpl. destruct (is_success o); reflexivity. Qed.

(** One order of one unit, nothing failing: it succeeds when the phone is
    available with positive stock, and is refused without any write when
    the stock is 0. *)
Lemma place_one E request pk w p :
  (forall op, db_fault E op = None) ->
  places request pk 1 ->
  phones w !! pk = Some p ->
  0 <= stock p ->
  (0 < stock p -> is_available p = true) ->
  exists r w',
    create_order E request w = (Ok r, w')
    /\ if 0 <? stock p
       then succeeded r = true /\ phones w' = <[pk := sold 1 p]> (phones w)
       else succeeded r = false /\ w' = w.
Proof.
  intros Hcalm Hplaces Hp Hnonneg Hav.
  destruct (create_order_places E request pk 1 w Hplaces) as (items & _ & ->).
  unfold place. rewrite !Hcalm, Hp.
  destruct (0 <? stock p) eqn:Hpos.
  - apply Z.ltb_lt in Hpos. rewrite (Hav Hpos).
    assert (Hge : (stock p <? 1) = false) by (apply Z.ltb_ge; lia).
    rewrite Hge. eexists _, _. split; [reflexivity|]. split; reflexivity.
  - apply Z.ltb_ge in Hpos.
    assert (Hlt : (stock p <? 1) = true) by (apply Z.ltb_lt; lia).
    destruct (is_available p); [rewrite Hlt|];
      eexists _, _; (split; [reflexivity|]); split; reflexivity.
Qed.

Lemma serve_all_successes E pk :
  (forall op, db_fault E op = None) ->
  forall requests w p,
    phones w !! pk = Some p ->
    0 <= stock p ->
    (0 < stock p -> is_available p = true) ->
    Forall (fun request => places request pk 1) requests ->
    successes (serve_all E requests w).1 = Nat.min (length requests) (Z.to_nat (stock p))
    /\ length (serve_all E requests w).1 = length requests.
Proof.
  intros Hcalm requests.
  induction requests as [|request requests IH]; intros w p Hp Hnonneg Hav Hall.
  { split; reflexivity. }
  apply Forall_cons in Hall as [Hplaces Hall].
  destruct (place_one E request pk w p Hcalm Hplaces Hp Hnonneg Hav)
    as (r & w' & Hrun & Hcase).
  simpl serve_all. rewrite Hrun.
  destruct (0 <? stock p) eqn:Hpos.
  - apply Z.ltb_lt in Hpos. destruct Hcase as [Hok Hphones].
    assert (Hp' : phones w' !! pk = Some (sold 1 p))
      by (rewrite Hphones; apply lookup_insert_eq).
    destruct (IH w' (sold 1 p) Hp') as [IHs IHl]; try assumption.
    + rewrite stock_sold. lia.
    + rewrite stock_sold, is_available_sold. intros Hmore.
      destruct (stock p - 1 =? 0) eqn:Hz; [apply Z.eqb_eq in Hz; lia|].
      apply Hav. lia.
    + destruct (serve_all E requests w') as [rs w'']. cbn [fst] in *.
      rewrite successes_cons, length_cons, length_cons. cbn [is_success].
      rewrite Hok, IHs, IHl, stock_sold. split; lia.
  - apply Z.ltb_ge in Hpos. destruct Hcase as [Hfail ->].
    destruct (IH w p Hp) as [IHs IHl]; try assumption.
    destruct (serve_all E requests w) as [rs w'']. cbn [fst] in *.
    rewrite successes_cons, length_cons, length_cons. cbn [is_success].
    rewrite Hfail, IHs, IHl. split; lia.
Qed.

(** C2, as amended: placements served one after the other never oversell.
    Two such placements against one phone whose quantities together exceed
    its stock do not both succeed; and N orders of one unit served in turn
    against an available phone of stock N-1 give exactly N-1 successes and
    one failure. *)
Theorem serial_placements_never_oversell pk w p :
  phones w !! pk = Some p ->
  (forall E1 E2 r1 r2 q1 q2 a1 w1 a2 w2,
     places r1 pk q1 -> places r2 pk q2 ->
     stock p < q1 + q2 ->
     create_order E1 r1 w = (Ok a1, w1) ->
     create_order E2 r2 w1 = (Ok a2, w2) ->
     ~ (succeeded a1 = true /\ succeeded a2 = true))
  /\ (forall E requests,
        (forall op, db_fault E op = None) ->
        is_available p = true ->
        0 <= stock p ->
        Forall (fun request => places request pk 1) requests ->
        length requests = S (Z.to_nat (stock p)) ->
        successes (serve_all E requests w).1 = Z.to_nat (stock p)
        /\ failures (serve_all E requests w).1 = 1%nat).
Proof.
  intros Hp. split.
  - intros E1 E2 r1 r2 q1 q2 a1 w1 a2 w2 Hpl1 Hpl2 Hover Hrun1 Hrun2 [Hok1 Hok2].
    destruct (completed_placement E1 r1 pk q1 w p a1 w1 Hpl1 Hp Hrun1 Hok1)
      as (_ & _ & items & _ & ->).
    assert (Hp1 : phones (with_phone pk (sold q1 p)
                            (with_order (new_order w items pk q1 p) w)) !! pk
                  = Some (sold q1 p)) by apply lookup_insert_eq.
    destruct (completed_placement E2 r2 pk q2 _ _ a2 w2 Hpl2 Hp1 Hrun2 Hok2)
      as (Hfits & _).
    rewrite stock_sold in Hfits. lia.
  - intros E requests Hcalm Hav Hnonneg Hall Hlen.
    destruct (serve_all_successes E pk Hcalm requests w p Hp Hnonneg (fun _ => Hav) Hall)
      as [Hs Hl].
    pose proof (successes_failures (serve_all E requests w).1) as Hsum.
    rewrite Hs, Hl, Hlen in *. split; lia.
Qed.

Lemma serial_placements_never_oversell_witness :
  phones shop !! 1 = Some galaxy
  /\ successes (serve_all calm (repeat (order_for 1 1) 4) shop).1 = 3%nat
  /\ failures (serve_all calm (repeat (order_for 1 1) 4) shop).1 = 1%nat.
Proof.
  assert (Hp : phones shop !! 1 = Some galaxy) by (vm_compute; reflexivity).
  split; [exact Hp|].
  apply (proj2 (serial_placements_never_oversell 1 shop galaxy Hp) calm
           (repeat (order_for 1 1) 4)).
  - intros op. reflexivity.
  - reflexivity.
  - vm_compute. discriminate.
  - repeat constructor; apply places_order_for; discriminate.
  - reflexivity.
Defined.

(** * Further properties of the handlers *)

(** ** [create_order]: refusals and acceptance *)

(** X1: a request past validation for a key that has no phone, or whose
    phone is not available (whatever its stock), is answered with status
    404 and nothing is written. *)
Theorem unavailable_phone_not_found E request pk q w :
  places request pk q ->
  db_fault E OpGet = None ->
  (forall p, phones w !! pk = Some p -> is_available p = false) ->
  create_order E request w
  = (Ok {| body := [("success", OBool false);
                    ("message", OText [Lit "Phone not found or not available"])];
           status_code := 404 |}, w).
Proof.
  intros Hplaces Hget Hgone.
  destruct (create_order_places E request pk q w Hplaces) as (items & _ & ->).
  unfold place. rewrite Hget.
  destruct (phones w !! pk) as [p|]; [|reflexivity].
  rewrite (Hgone p eq_refl). reflexivity.
Qed.

Lemma unavailable_phone_not_found_witness :
  create_order calm (order_for 2 1) shop
  = (Ok {| body := [("success", OBool false);
                    ("message", OText [Lit "Phone not found or not available"])];
           status_code := 404 |}, shop).
Proof.
  apply (unavailable_phone_not_found calm (order_for 2 1) 2 1 shop).
  - apply places_order_for. discriminate.
  - reflexivity.
  - intros p Hp. vm_compute in Hp. discriminate Hp.
Defined.

(** X2: a body that is not JSON, or is JSON but not an object, is answered
    with status 500 by the catch-all clause, and nothing is written. *)
Theorem malformed_order_body E request w :
  (forall items, request <> Json (JObj items)) ->
  create_order E request w
  = (Ok {| body := [("success", OBool false);
                    ("message",
                     OText [Lit "Error creating order: ";
                            StrOf (match request with
                                   | NotJson => JSONDecodeError
                                   | Json _ => AttributeError
                                   end)])];
           status_code := 500 |}, w).
Proof.
  intros Hno. destruct request as [|data]; [reflexivity|].
  destruct data; try reflexivity.
  exfalso. eapply Hno. reflexivity.
Qed.

Lemma malformed_order_body_witness :
  create_order calm (Json (JArr [JInt 1; JInt 2])) shop
  = (Ok {| body := [("success", OBool false);
                    ("message", OText [Lit "Error creating order: "; StrOf AttributeError])];
           status_code := 500 |}, shop).
Proof.
  apply (malformed_order_body calm (Json (JArr [JInt 1; JInt 2])) shop).
  intros items. discriminate.
Defined.

(** What a successful [place] has done. *)
Lemma place_success E items pk q w p r w' :
  phones w !! pk = Some p ->
  place E items pk q w = (Ok r, w') ->
  succeeded r = true ->
  q <= stock p /\ is_available p = true
  /\ r = order_placed (order_id (new_order w items pk q p))
                      (total_price_php (new_order w items pk q p))
  /\ w' = with_phone pk (sold q p) (with_order (new_order w items pk q p) w).
Proof.
  intros Hp Hrun Hok. unfold place in Hrun. rewrite Hp in Hrun.
  destruct (db_fault E OpGet) as [[]|];
    try (injection Hrun as <- <-; discriminate Hok).
  destruct (is_available p); [|injection Hrun as <- <-; discriminate Hok].
  destruct (stock p <? q) eqn:Hlt; [injection Hrun as <- <-; discriminate Hok|].
  apply Z.ltb_ge in Hlt.
  destruct (db_fault E OpCreate); [injection Hrun as <- <-; discriminate Hok|].
  destruct (db_fault E OpSave); injection Hrun as <- <-; [discriminate Hok|].
  repeat split; try reflexivity. exact Hlt.
Qed.

(** X3: with no statement failing, an order of a positive quantity not
    above the stock of an available phone is accepted: it is answered 200
    with [success: True] and the identifier of the order it has added for
    that phone and quantity, and the stock becomes stock - quantity. *)
Theorem quantity_within_stock_accepted E request pk q w p :
  places request pk q ->
  (forall op, db_fault E op = None) ->
  phones w !! pk = Some p ->
  is_available p = true ->
  0 < q ->
  q <= stock p ->
  exists r w' o,
    create_order E request w = (Ok r, w')
    /\ succeeded r = true
    /\ status_code r = 200
    /\ field "order_id" r = Some (OInt (order_id o))
    /\ orders w' = orders w ++ [o]
    /\ phone o = pk /\ quantity o = q
    /\ (stock <$> phones w' !! pk) = Some (stock p - q).
Proof.
  intros Hplaces Hcalm Hp Hav Hpos Hle.
  destruct (create_order_places E request pk q w Hplaces) as (items & _ & ->).
  unfold place. rewrite !Hcalm, Hp, Hav.
  assert (Hge : (stock p <? q) = false) by (apply Z.ltb_ge; exact Hle).
  rewrite Hge. eexists _, _, (new_order w items pk q p). split; [reflexivity|].
  repeat split.
  simpl. rewrite lookup_insert_eq. simpl. rewrite stock_sold. reflexivity.
Qed.

Lemma quantity_within_stock_accepted_witness :
  exists r w' o,
    create_order calm (order_for 1 3) shop = (Ok r, w')
    /\ succeeded r = true
    /\ status_code r = 200
    /\ field "order_id" r = Some (OInt (order_id o))
    /\ orders w' = orders shop ++ [o]
    /\ phone o = 1 /\ quantity o = 3
    /\ (stock <$> phones w' !! 1) = Some (stock galaxy - 3).
Proof.
  apply (quantity_within_stock_accepted calm (order_for 1 3) 1 3 shop galaxy).
  - apply places_order_for. discriminate.
  - intros op. reflexivity.
  - vm_compute. reflexivity.
  - reflexivity.
  - reflexivity.
  - vm_compute. discriminate.
Defined.

(** X4: the order stored by a successful call is the last row of the table.
    It refers to the phone of the request, has its quantity and the status
    "pending", and holds each customer field as text: a string as it was
    sent, any other value as its [str()]. Its identifier is the [order_id]
    of the response. *)
Theorem stored_order_matches_request E items pk q w p r w' :
  places (Json (JObj items)) pk q ->
  phones w !! pk = Some p ->
  create_order E (Json (JObj items)) w = (Ok r, w') ->
  succeeded r = true ->
  exists o,
    orders w' = orders w ++ [o]
    /\ phone o = pk /\ quantity o = q /\ status o = "pending"
    /\ customer_name o = to_text (default JNull (assoc "customer_name" items))
    /\ customer_email o = to_text (default JNull (assoc "customer_email" items))
    /\ customer_phone o = to_text (default JNull (assoc "customer_phone" items))
    /\ shipping_address o = to_text (default JNull (assoc "shipping_address" items))
    /\ field "order_id" r = Some (OInt (order_id o)).
Proof.
  intros Hplaces Hp Hrun Hok.
  destruct (create_order_places E _ pk q w Hplaces) as (items' & Heq & Hplace).
  injection Heq as <-. rewrite Hplace in Hrun.
  destruct (place_success E items pk q w p r w' Hp Hrun Hok) as (_ & _ & -> & ->).
  exists (new_order w items pk q p). repeat split; reflexivity.
Qed.

Lemma stored_order_matches_request_witness :
  places (Json (JObj (order_items (JInt 1) (JInt 2)))) 1 2
  /\ exists o,
       orders (create_order calm (order_for 1 2) shop).2 = orders shop ++ [o]
       /\ phone o = 1 /\ quantity o = 2 /\ status o = "pending"
       /\ customer_name o
          = to_text (default JNull (assoc "customer_name" (order_items (JInt 1) (JInt 2))))
       /\ customer_email o
          = to_text (default JNull (assoc "customer_email" (order_items (JInt 1) (JInt 2))))
       /\ customer_phone o
          = to_text (default JNull (assoc "customer_phone" (order_items (JInt 1) (JInt 2))))
       /\ shipping_address o
          = to_text (default JNull (assoc "shipping_address" (order_items (JInt 1) (JInt 2))))
       /\ field "order_id" (order_placed 1 (Dec false 5199800 (-2)))
          = Some (OInt (order_id o)).
Proof.
  assert (Hplaces : places (Json (JObj (order_items (JInt 1) (JInt 2)))) 1 2)
    by (apply (places_order_for 1 2); discriminate).
  split; [exact Hplaces|].
  refine (stored_order_matches_request calm (order_items (JInt 1) (JInt 2)) 1 2 shop galaxy
            (order_placed 1 (Dec false 5199800 (-2)))
            (create_order calm (order_for 1 2) shop).2 Hplaces _ _ _).
  - vm_compute. reflexivity.
  - vm_compute. reflexivity.
  - reflexivity.
Defined.

(** ** [create_order]: what a call leaves alone *)

Lemma same_listing_sold q p : same_listing p (sold q p).
Proof.
  unfold same_listing, sold. simpl.
  destruct (stock p - q =? 0); repeat split; reflexivity.
Qed.

(** X5: a call adds no phone and removes none; it never changes the name,
    brand, model, price or description of a phone; and the row of a phone
    the request does not order is left exactly as it was. *)
Theorem placement_touches_one_phone E request w r w' :
  create_order E request w = (Ok r, w') ->
  forall pk,
    (phones w' !! pk = None <-> phones w !! pk = None)
    /\ forall p p',
         phones w !! pk = Some p -> phones w' !! pk = Some p' ->
         same_listing p p' /\ ((forall q, ~ places request pk q) -> p' = p).
Proof.
  intros Hrun pk.
  destruct (create_order_effect E request w) as (r0 & w0 & Heq & Heff).
  rewrite Hrun in Heq. injection Heq as <- <-.
  destruct Heff as [r _ _ | items pk0 q p0 e _ _ _ _ _ _
                   | items pk0 q p0 _ Hplaces Hp0 _ _ _].
  - split; [tauto|]. intros p p' Hp Hp'.
    assert (p' = p) as -> by congruence.
    split; [repeat split; reflexivity | reflexivity].
  - split; [simpl; tauto|]. simpl. intros p p' Hp Hp'.
    assert (p' = p) as -> by congruence.
    split; [repeat split; reflexivity | reflexivity].
  - simpl. rewrite lookup_insert.
    destruct (decide (pk0 = pk)) as [->|Hne].
    + split; [split; [discriminate | congruence]|].
      intros p p' Hp [= <-].
      assert (p0 = p) as -> by congruence.
      split; [apply same_listing_sold|].
      intros Hnot. exfalso. exact (Hnot q Hplaces).
    + split; [tauto|]. intros p p' Hp Hp'.
      assert (p' = p) as -> by congruence.
      split; [repeat split; reflexivity | reflexivity].
Qed.

Lemma placement_touches_one_phone_witness :
  create_order calm (order_for 1 2) shop
  = (Ok (order_placed 1 (Dec false 5199800 (-2))),
     (create_order calm (order_for 1 2) shop).2)
  /\ (phones (create_order calm (order_for 1 2) shop).2 !! 5 = None
      <-> phones shop !! 5 = None).
Proof.
  assert (H : create_order calm (order_for 1 2) shop
              = (Ok (order_placed 1 (Dec false 5199800 (-2))),
                 (create_order calm (order_for 1 2) shop).2))
    by (vm_compute; reflexivity).
  split; [exact H|].
  exact (proj1 (placement_touches_one_phone calm (order_for 1 2) shop _ _ H 5)).
Defined.

(** ** [create_order]: invariants over sequences of calls *)

Lemma serve_each_cons E request calls w :
  (serve_each ((E, request) :: calls) w).2
  = (serve_each calls (create_order E request w).2).2.
Proof.
  simpl. destruct (create_order E request w) as [r w1]. simpl.
  destruct (serve_each calls w1) as [rs w2]. reflexivity.
Qed.

Lemma create_order_stock_nonneg E request w :
  stock_nonneg w -> stock_nonneg (create_order E request w).2.
Proof.
  intros Hinv.
  destruct (create_order_effect E request w) as (r & w' & -> & Heff). simpl.
  destruct Heff as [r _ _ | items pk q p e _ _ _ _ _ _
                   | items pk q p _ _ Hp _ Hle _].
  - assumption.
  - exact Hinv.
  - intros pk' p'. simpl. rewrite lookup_insert.
    destruct (decide (pk = pk')) as [->|Hne].
    + intros [= <-]. rewrite stock_sold. lia.
    + apply Hinv.
Qed.

(** X6: whatever requests are served one after the other, and whichever
    database statements fail for whichever of them, no stock becomes
    negative if none was. *)
Theorem stock_never_negative calls w :
  stock_nonneg w -> stock_nonneg (serve_each calls w).2.
Proof.
  revert w. induction calls as [|[E request] calls IH]; intros w Hinv.
  - exact Hinv.
  - rewrite serve_each_cons. apply IH, create_order_stock_nonneg, Hinv.
Qed.

Lemma stock_nonneg_shop : stock_nonneg shop.
Proof.
  intros pk p. unfold shop. simpl. rewrite lookup_singleton.
  destruct (decide (1 = pk)); [|discriminate].
  intros [= <-]. discriminate.
Qed.

Lemma stock_never_negative_witness :
  stock_nonneg
    (serve_each [(save_fails, order_for 1 2); (calm, order_for 1 5); (calm, order_for 1 1)]
       shop).2.
Proof.
  exact (stock_never_negative
           [(save_fails, order_for 1 2); (calm, order_for 1 5); (calm, order_for 1 1)]
           shop stock_nonneg_shop).
Defined.

Lemma ordered_app pk os o :
  ordered pk (os ++ [o]) = ordered pk os + (if phone o =? pk then quantity o else 0).
Proof. induction os as [|o' os IH]; simpl; [lia | rewrite IH; lia]. Qed.

Lemma create_order_conserves E request w pk :
  db_fault E OpSave = None ->
  stock_of pk (create_order E request w).2
  + ordered pk (orders (create_order E request w).2)
  = stock_of pk w + ordered pk (orders w).
Proof.
  intros Hsave.
  destruct (create_order_effect E request w) as (r & w' & -> & Heff). simpl.
  destruct Heff as [r _ _ | items pk0 q p e _ _ _ _ _ Hfault
                   | items pk0 q p _ _ Hp _ _ _].
  - reflexivity.
  - congruence.
  - unfold stock_of. simpl. rewrite ordered_app, lookup_insert. simpl.
    destruct (decide (pk0 = pk)) as [->|Hne].
    + rewrite Hp. simpl. rewrite stock_sold, Z.eqb_refl. lia.
    + apply Z.eqb_neq in Hne. rewrite Hne. lia.
Qed.

(** X7: as long as [phone.save()] fails for none of them, requests served
    one after the other conserve the inventory of each phone, whatever else
    fails for whichever of them: the stock of the phone plus the units of it
    recorded in the order table stays what it was. *)
Theorem inventory_conserved calls w pk :
  Forall (fun call => db_fault call.1 OpSave = None) calls ->
  stock_of pk (serve_each calls w).2 + ordered pk (orders (serve_each calls w).2)
  = stock_of pk w + ordered pk (orders w).
Proof.
  intros Hsave. revert w.
  induction calls as [|[E request] calls IH]; intros w.
  - reflexivity.
  - apply Forall_cons in Hsave as [Hhead Htail].
    rewrite serve_each_cons, (IH Htail). apply create_order_conserves, Hhead.
Qed.

Lemma inventory_conserved_witness :
  stock_of 1
    (serve_each [(calm, order_for 1 2); (lookup_fails, order_for 1 1); (calm, order_for 1 1)]
       shop).2
  + ordered 1
      (orders
         (serve_each
            [(calm, order_for 1 2); (lookup_fails, order_for 1 1); (calm, order_for 1 1)]
            shop).2)
  = stock_of 1 shop + ordered 1 (orders shop).
Proof.
  apply (inventory_conserved
           [(calm, order_for 1 2); (lookup_fails, order_for 1 1); (calm, order_for 1 1)]
           shop 1).
  repeat constructor.
Defined.

(** ** [create_order] followed by another request *)

(** X8: once an order has taken the whole stock of a phone, a further order
    for that phone is answered 404 "Phone not found or not available", not
    400 with the remaining count: the phone was made unavailable and the
    lookup only sees available phones. *)
Theorem sold_out_phone_not_found E1 E2 r1 r2 pk q2 w p a1 w1 :
  places r1 pk (stock p) ->
  phones w !! pk = Some p ->
  create_order E1 r1 w = (Ok a1, w1) ->
  succeeded a1 = true ->
  places r2 pk q2 ->
  db_fault E2 OpGet = None ->
  create_order E2 r2 w1 = (Ok phone_not_found, w1).
Proof.
  intros Hpl1 Hp Hrun1 Hok1 Hpl2 Hget.
  destruct (completed_placement E1 r1 pk _ w p a1 w1 Hpl1 Hp Hrun1 Hok1)
    as (_ & _ & items & _ & ->).
  destruct (create_order_places E2 r2 pk q2
              (with_phone pk (sold (stock p) p)
                 (with_order (new_order w items pk (stock p) p) w)) Hpl2)
    as (items2 & _ & ->).
  unfold place. rewrite Hget. simpl. rewrite lookup_insert_eq.
  rewrite is_available_sold, Z.sub_diag. reflexivity.
Qed.

Lemma sold_out_phone_not_found_witness :
  create_order calm (order_for 1 1) (create_order calm (order_for 1 3) shop).2
  = (Ok phone_not_found, (create_order calm (order_for 1 3) shop).2).
Proof.
  apply (sold_out_phone_not_found calm calm (order_for 1 3) (order_for 1 1) 1 1 shop galaxy
           (order_placed 1 (Dec false 7799700 (-2)))).
  - apply (places_order_for 1 3). discriminate.
  - vm_compute. reflexivity.
  - vm_compute. reflexivity.
  - reflexivity.
  - apply places_order_for. discriminate.
  - reflexivity.
Defined.

Lemma phones_api_rows E w :
  db_fault E OpFilter = None ->
  phones_api E w
  = (Ok {| body := [("phones",
                     OArr (map phone_entry (map_to_list (filter in_stock (phones w)))))];
           status_code := 200 |}, w).
Proof.
  intros Hok. unfold phones_api, Phone_objects_filter, execute, bind, ret.
  rewrite Hok. reflexivity.
Qed.

(** X9: after a successful order the catalog shows the phone with its new
    stock as long as some stock is left, and no longer shows it once the
    order has taken the whole stock. *)
Theorem catalog_after_placement E E' request pk q w p r w' :
  places request pk q ->
  phones w !! pk = Some p ->
  create_order E request w = (Ok r, w') ->
  succeeded r = true ->
  db_fault E' OpFilter = None ->
  exists rows,
    (phones_api E' w').1
    = Ok {| body := [("phones", OArr (map phone_entry rows))]; status_code := 200 |}
    /\ (q < stock p -> exists p', (pk, p') ∈ rows /\ stock p' = stock p - q)
    /\ (q = stock p -> forall p', (pk, p') ∉ rows).
Proof.
  intros Hplaces Hp Hrun Hok Hfilter.
  destruct (completed_placement E request pk q w p r w' Hplaces Hp Hrun Hok)
    as (Hle & Hav & items & _ & ->).
  rewrite (phones_api_rows E' _ Hfilter). eexists. split; [reflexivity|].
  simpl. split.
  - intros Hlt. exists (sold q p). split; [|apply stock_sold].
    rewrite elem_of_map_to_list, map_lookup_filter_Some. split.
    + apply lookup_insert_eq.
    + unfold in_stock. simpl. rewrite stock_sold, is_available_sold, Hav.
      destruct (stock p - q =? 0) eqn:Hz; [apply Z.eqb_eq in Hz; lia|].
      split; [reflexivity | lia].
  - intros -> p'. rewrite elem_of_map_to_list, map_lookup_filter_Some.
    rewrite lookup_insert_eq. intros [[= <-] [_ Hpos]].
    simpl in Hpos. rewrite stock_sold in Hpos. lia.
Qed.

Lemma catalog_after_placement_witness :
  places (order_for 1 2) 1 2
  /\ exists rows,
       (phones_api calm (create_order calm (order_for 1 2) shop).2).1
       = Ok {| body := [("phones", OArr (map phone_entry rows))]; status_code := 200 |}
       /\ (2 < stock galaxy -> exists p', (1, p') ∈ rows /\ stock p' = stock galaxy - 2)
       /\ (2 = stock galaxy -> forall p', (1, p') ∉ rows).
Proof.
  assert (Hplaces : places (order_for 1 2) 1 2)
    by (apply places_order_for; discriminate).
  split; [exact Hplaces|].
  refine (catalog_after_placement calm calm (order_for 1 2) 1 2 shop galaxy
            (order_placed 1 (Dec false 5199800 (-2)))
            (create_order calm (order_for 1 2) shop).2 Hplaces _ _ _ _).
  - vm_compute. reflexivity.
  - vm_compute. reflexivity.
  - reflexivity.
  - reflexivity.
Defined.

(** ** [chat_api]: the reply *)

(** A chat request that can be forwarded: what is sent, and what is
    answered from the reply of the service. *)
Lemma chat_api_valid E items w user_message hist objs :
  assoc "message" items = Some user_message ->
  truthy user_message = true ->
  py_get (JObj items) "history" (JArr []) = Ok (JArr hist) ->
  last_n 10 hist = map JObj objs ->
  chat_api E (Json (JObj items)) w
  = (Ok (chat_reply (openrouter E (forwarded E w user_message objs))),
     {| phones := phones w; orders := orders w;
        sent := sent w ++ [forwarded E w user_message objs] |}).
Proof.
  intros Hmsg Htruthy Hhist Hlast.
  unfold forwarded.
  pose proof (filter_keeps_world E w) as Hw.
  destruct (Phone_objects_filter E w) as [o w0] eqn:Hfilter. simpl in Hw. subst w0.
  unfold py_get in Hhist.
  cbv [chat_api try_except bind lift ret raise json_loads py_get negb].
  rewrite Hmsg. cbv beta iota. rewrite Htruthy. cbv beta iota.
  rewrite Hfilter.
  destruct (assoc "history" items) as [v|]; injection Hhist as Hv;
    try subst v; cbv [py_last10]; try rewrite Hlast;
    try (destruct hist; [|discriminate Hv]);
    try (change (last_n 10 (@nil json)) with (@nil json) in Hlast;
         destruct objs; [|discriminate Hlast]; change (last_n 10 (@nil json)) with (map JObj []));
    destruct o as [rows|e0]; cbv beta iota;
    rewrite mapM_turns; cbv beta iota;
    cbv [requests_post chat_reply read_reply chat_failure invalid_reply chat_post
         context_of fst negb];
    cbn [app];
    repeat first [ reflexivity | destruct_innermost ].
Qed.

(** X10: when the service answers with an object whose [choices] is a list
    starting with an object that has a [message] object with a [content],
    the chat request is answered 200 with that content and
    [success: True]. *)
Theorem chat_answers_content E items w user_message hist objs ritems citems rest mitems ai :
  assoc "message" items = Some user_message ->
  truthy user_message = true ->
  py_get (JObj items) "history" (JArr []) = Ok (JArr hist) ->
  last_n 10 hist = map JObj objs ->
  openrouter E (forwarded E w user_message objs) = Ok (JObj ritems) ->
  assoc "choices" ritems = Some (JArr (JObj citems :: rest)) ->
  assoc "message" citems = Some (JObj mitems) ->
  assoc "content" mitems = Some ai ->
  (chat_api E (Json (JObj items)) w).1
  = Ok {| body := [("response", OJson ai); ("success", OBool true)];
          status_code := 200 |}.
Proof.
  intros Hmsg Htruthy Hhist Hlast Hup Hchoices Hmessage Hcontent.
  rewrite (chat_api_valid E items w user_message hist objs Hmsg Htruthy Hhist Hlast).
  cbn [fst]. rewrite Hup.
  unfold chat_reply, read_reply, py_contains, py_getitem, py_first, py_len_is_zero.
  rewrite Hchoices. cbn. rewrite Hmessage, Hcontent. reflexivity.
Qed.

Lemma chat_answers_content_witness :
  (chat_api calm (Json (JObj hello)) shop).1
  = Ok {| body := [("response", OJson (JStr "Hello!")); ("success", OBool true)];
          status_code := 200 |}.
Proof.
  apply (chat_answers_content calm hello shop (JStr "Hello") [] []
           [("choices", JArr [JObj [("message", JObj [("content", JStr "Hello!")])]])]
           [("message", JObj [("content", JStr "Hello!")])] []
           [("content", JStr "Hello!")] (JStr "Hello!"));
    reflexivity.
Defined.

(** X11: when the call to the service raises a [RequestException]
    (connection error, timeout, error status, undecodable reply), the chat
    request is answered 500 with the connection apology and the text of
    the exception under [error]; the request counts as sent and no table
    changes. *)
Theorem chat_service_unreachable E items w user_message hist objs :
  assoc "message" items = Some user_message ->
  truthy user_message = true ->
  py_get (JObj items) "history" (JArr []) = Ok (JArr hist) ->
  last_n 10 hist = map JObj objs ->
  openrouter E (forwarded E w user_message objs) = Raise RequestException ->
  chat_api E (Json (JObj items)) w
  = (Ok {| body := [("response", OText [Lit "Sorry, I encountered an error connecting to the AI service. Please try again."]);
                    ("success", OBool false);
                    ("error", OText [StrOf RequestException])];
           status_code := 500 |},
     {| phones := phones w; orders := orders w;
        sent := sent w ++ [forwarded E w user_message objs] |}).
Proof.
  intros Hmsg Htruthy Hhist Hlast Hup.
  rewrite (chat_api_valid E items w user_message hist objs Hmsg Htruthy Hhist Hlast).
  rewrite Hup. reflexivity.
Qed.

Lemma chat_service_unreachable_witness :
  chat_api save_fails (Json (JObj hello)) shop
  = (Ok {| body := [("response", OText [Lit "Sorry, I encountered an error connecting to the AI service. Please try again."]);
                    ("success", OBool false);
                    ("error", OText [StrOf RequestException])];
           status_code := 500 |},
     {| phones := phones shop; orders := orders shop;
        sent := sent shop ++ [forwarded save_fails shop (JStr "Hello") []] |}).
Proof.
  apply (chat_service_unreachable save_fails hello shop (JStr "Hello") [] []);
    reflexivity.
Defined.

(** X12: a reply object without [choices], or whose [choices] is an empty
    list, is answered 500 with the "invalid response" apology and no
    [error] field. *)
Theorem chat_reply_without_choices E items w user_message hist objs ritems :
  assoc "message" items = Some user_message ->
  truthy user_message = true ->
  py_get (JObj items) "history" (JArr []) = Ok (JArr hist) ->
  last_n 10 hist = map JObj objs ->
  openrouter E (forwarded E w user_message objs) = Ok (JObj ritems) ->
  assoc "choices" ritems = None \/ assoc "choices" ritems = Some (JArr []) ->
  (chat_api E (Json (JObj items)) w).1
  = Ok {| body := [("response", OText [Lit "Sorry, I received an invalid response from the AI service. Please try again."]);
                   ("success", OBool false)];
          status_code := 500 |}.
Proof.
  intros Hmsg Htruthy Hhist Hlast Hup Hchoices.
  rewrite (chat_api_valid E items w user_message hist objs Hmsg Htruthy Hhist Hlast).
  cbn [fst]. rewrite Hup.
  unfold chat_reply, read_reply, py_contains, py_getitem, py_len_is_zero.
  destruct Hchoices as [-> | ->]; reflexivity.
Qed.

Lemma chat_reply_without_choices_witness :
  (chat_api no_choices (Json (JObj hello)) shop).1
  = Ok {| body := [("response", OText [Lit "Sorry, I received an invalid response from the AI service. Please try again."]);
                   ("success", OBool false)];
          status_code := 500 |}.
Proof.
  apply (chat_reply_without_choices no_choices hello shop (JStr "Hello") [] []
           [("error", JStr "rate limited")]); try reflexivity.
  left. reflexivity.
Defined.

(** X13: when the first choice of the reply is an object without
    [message], or its [message] is an object without [content], the
    [KeyError] is answered 500 with the "error processing the response"
    apology and an [error] field that starts with "Missing key: ". *)
Theorem chat_reply_missing_key E items w user_message hist objs ritems citems rest :
  assoc "message" items = Some user_message ->
  truthy user_message = true ->
  py_get (JObj items) "history" (JArr []) = Ok (JArr hist) ->
  last_n 10 hist = map JObj objs ->
  openrouter E (forwarded E w user_message objs) = Ok (JObj ritems) ->
  assoc "choices" ritems = Some (JArr (JObj citems :: rest)) ->
  assoc "message" citems = None
  \/ (exists mitems, assoc "message" citems = Some (JObj mitems)
                     /\ assoc "content" mitems = None) ->
  (chat_api E (Json (JObj items)) w).1
  = Ok {| body := [("response", OText [Lit "Sorry, there was an error processing the response. Please try again."]);
                   ("success", OBool false);
                   ("error", OText [Lit "Missing key: "; StrOf KeyError])];
          status_code := 500 |}.
Proof.
  intros Hmsg Htruthy Hhist Hlast Hup Hchoices Hmissing.
  rewrite (chat_api_valid E items w user_message hist objs Hmsg Htruthy Hhist Hlast).
  cbn [fst]. rewrite Hup.
  unfold chat_reply, read_reply, py_contains, py_getitem, py_first, py_len_is_zero.
  rewrite Hchoices. cbn.
  destruct Hmissing as [-> | (mitems & -> & ->)]; reflexivity.
Qed.

Lemma chat_reply_missing_key_witness :
  (chat_api no_content (Json (JObj hello)) shop).1
  = Ok {| body := [("response", OText [Lit "Sorry, there was an error processing the response. Please try again."]);
                   ("success", OBool false);
                   ("error", OText [Lit "Missing key: "; StrOf KeyError])];
          status_code := 500 |}.
Proof.
  apply (chat_reply_missing_key no_content hello shop (JStr "Hello") [] []
           [("choices", JArr [JObj [("message", JObj [("role", JStr "assistant")])]])]
           [("message", JObj [("role", JStr "assistant")])] []); try reflexivity.
  right. exists [("role", JStr "assistant")]. split; reflexivity.
Defined.

(** ** [chat_api]: the system prompt *)

Lemma text_empty_lines rows :
  text_empty (join [Lit newline] (map phone_line rows))
  = match rows with [] => true | _ => false end.
Proof. destruct rows as [|row [|row' rows]]; reflexivity. Qed.

(** X14: the catalog part of the system prompt that is sent. If the query
    for the phones fails, it is "Phone database is currently unavailable.";
    otherwise it has one line for each phone that is available with
    positive stock and for no other phone, or is "No phones are currently
    available in stock." when there is none. *)
Theorem prompt_lists_phones_in_stock E items w user_message hist objs :
  assoc "message" items = Some user_message ->
  truthy user_message = true ->
  py_get (JObj items) "history" (JArr []) = Ok (JArr hist) ->
  last_n 10 hist = map JObj objs ->
  exists ctx,
    sent (chat_api E (Json (JObj items)) w).2
    = sent w ++
      [chat_post E
         ({| role := OStr "system"; content := OText (system_prompt ctx) |}
          :: map turn objs
          ++ [{| role := OStr "user"; content := OJson user_message |}])]
    /\ match db_fault E OpFilter with
       | Some _ => ctx = [Lit "Phone database is currently unavailable."]
       | None =>
           exists rows,
             NoDup rows
             /\ (forall pk p,
                   (pk, p) ∈ rows
                   <-> phones w !! pk = Some p /\ is_available p = true /\ 0 < stock p)
             /\ ctx = match rows with
                      | [] => [Lit "No phones are currently available in stock."]
                      | _ => join [Lit newline] (map phone_line rows)
                      end
       end.
Proof.
  intros Hmsg Htruthy Hhist Hlast.
  exists (context_of (Phone_objects_filter E w).1).
  rewrite (chat_api_valid E items w user_message hist objs Hmsg Htruthy Hhist Hlast).
  split; [reflexivity|].
  unfold Phone_objects_filter, execute, bind, ret, raise.
  destruct (db_fault E OpFilter) as [e|]; [reflexivity|].
  exists (map_to_list (filter in_stock (phones w))).
  split; [apply NoDup_map_to_list|]. split.
  - intros pk p. rewrite elem_of_map_to_list, map_lookup_filter_Some.
    unfold in_stock. simpl. tauto.
  - cbn [fst context_of]. rewrite text_empty_lines.
    destruct (map_to_list (filter in_stock (phones w))); reflexivity.
Qed.

Lemma prompt_lists_phones_in_stock_witness :
  exists ctx,
    sent (chat_api calm (Json (JObj hello)) shop).2
    = sent shop ++
      [chat_post calm
         ({| role := OStr "system"; content := OText (system_prompt ctx) |}
          :: map turn []
          ++ [{| role := OStr "user"; content := OJson (JStr "Hello") |}])]
    /\ match db_fault calm OpFilter with
       | Some _ => ctx = [Lit "Phone database is currently unavailable."]
       | None =>
           exists rows,
             NoDup rows
             /\ (forall pk p,
                   (pk, p) ∈ rows
                   <-> phones shop !! pk = Some p /\ is_available p = true /\ 0 < stock p)
             /\ ctx = match rows with
                      | [] => [Lit "No phones are currently available in stock."]
                      | _ => join [Lit newline] (map phone_line rows)
                      end
       end.
Proof.
  apply (prompt_lists_phones_in_stock calm hello shop (JStr "Hello") [] []);
    reflexivity.
Defined.

(** ** [chat_api]: requests that are not forwarded *)

Lemma mapM_history_fails xs w :
  forallb is_object xs = false ->
  mapM history_message xs w = (Raise AttributeError, w).
Proof.
  induction xs as [|x xs IH]; [discriminate|].
  simpl. intros Hbad.
  destruct x; try reflexivity.
  simpl in Hbad. unfold bind at 1.
  assert (Hhead : history_message (JObj items) w = (Ok (turn items), w)).
  { unfold history_message, turn, bind, lift, ret, py_get, default.
    destruct (assoc "role" items), (assoc "content" items); reflexivity. }
  rewrite Hhead. unfold bind at 1. rewrite (IH Hbad). reflexivity.
Qed.

(** X15: a chat request with a message whose history cannot be used (it is
    not a list, or one of its last ten entries is not an object) is
    answered 500; nothing is sent to the service and nothing changes. Where
    the history is a JSON object and the interpreter hashes slices, taking
    its last ten entries raises [KeyError], and the answer is that of the
    [except KeyError] clause, with the error text "Missing key: ..."; in
    every other case it is the general apology with the text of the
    exception. *)
Theorem chat_unusable_history E items w user_message e :
  assoc "message" items = Some user_message ->
  truthy user_message = true ->
  history_error (slices_hashable E) (default (JArr []) (assoc "history" items)) = Some e ->
  chat_api E (Json (JObj items)) w
  = (Ok (if is_object (default (JArr []) (assoc "history" items)) && slices_hashable E
         then {| body := [("response", OText [Lit "Sorry, there was an error processing the response. Please try again."]);
                          ("success", OBool false);
                          ("error", OText [Lit "Missing key: "; StrOf KeyError])];
                 status_code := 500 |}
         else {| body := [("response", OText [Lit "Sorry, something went wrong. Please try again."]);
                          ("success", OBool false);
                          ("error", OText [StrOf e])];
                 status_code := 500 |}), w)
  /\ (e = KeyError
      <-> is_object (default (JArr []) (assoc "history" items)) && slices_hashable E = true).
Proof.
  intros Hmsg Htruthy Herr.
  pose proof (filter_keeps_world E w) as Hw.
  destruct (Phone_objects_filter E w) as [o w0] eqn:Hfilter. simpl in Hw. subst w0.
  cbv [chat_api try_except bind lift ret raise json_loads py_get negb].
  rewrite Hmsg. cbv beta iota. rewrite Htruthy. cbv beta iota.
  rewrite Hfilter. unfold history_error in Herr.
  destruct (assoc "history" items) as [v|]; simpl in Herr |- *.
  - destruct (py_last10 (slices_hashable E) v) as [xs|e'] eqn:Hslice.
    + destruct (forallb is_object xs) eqn:Hobjs; [discriminate Herr|].
      injection Herr as <-.
      assert (Hv : is_object v = false)
        by (destruct v; try reflexivity; simpl in Hslice; discriminate Hslice).
      rewrite Hv. simpl. split; [|split; discriminate].
      destruct o; cbv beta iota; rewrite (mapM_history_fails _ _ Hobjs); reflexivity.
    + injection Herr as ->.
      destruct v; simpl in Hslice; try discriminate Hslice;
        try (injection Hslice as <-; simpl; split;
             [destruct o; reflexivity | split; discriminate]).
      destruct (slices_hashable E); injection Hslice as <-; simpl;
        (split; [destruct o; reflexivity | split; (reflexivity || discriminate)]).
  - discriminate Herr.
Qed.

Lemma chat_unusable_history_witness :
  chat_api save_fails
    (Json (JObj [("message", JStr "Hello"); ("history", JObj (past_turn 1))])) shop
  = (Ok {| body := [("response", OText [Lit "Sorry, there was an error processing the response. Please try again."]);
                    ("success", OBool false);
                    ("error", OText [Lit "Missing key: "; StrOf KeyError])];
           status_code := 500 |}, shop)
  /\ chat_api calm
       (Json (JObj [("message", JStr "Hello");
                    ("history", JArr [JStr "hi"; JObj (past_turn 1)])])) shop
     = (Ok {| body := [("response", OText [Lit "Sorry, something went wrong. Please try again."]);
                       ("success", OBool false);
                       ("error", OText [StrOf AttributeError])];
              status_code := 500 |}, shop).
Proof.
  split.
  - apply (chat_unusable_history save_fails
             [("message", JStr "Hello"); ("history", JObj (past_turn 1))]
             shop (JStr "Hello") KeyError);
      reflexivity.
  - apply (chat_unusable_history calm
             [("message", JStr "Hello"); ("history", JArr [JStr "hi"; JObj (past_turn 1)])]
             shop (JStr "Hello") AttributeError);
      reflexivity.
Defined.

(** X16: a chat body that is not JSON, or is JSON but not an object, is
    answered 500 with the general apology; nothing is sent to the service
    and nothing changes. *)
Theorem malformed_chat_body E request w :
  (forall items, request <> Json (JObj items)) ->
  chat_api E request w
  = (Ok {| body := [("response", OText [Lit "Sorry, something went wrong. Please try again."]);
                    ("success", OBool false);
                    ("error",
                     OText [StrOf (match request with
                                   | NotJson => JSONDecodeError
                                   | Json _ => AttributeError
                                   end)])];
           status_code := 500 |}, w).
Proof.
  intros Hno. destruct request as [|data]; [reflexivity|].
  destruct data; try reflexivity.
  exfalso. eapply Hno. reflexivity.
Qed.

Lemma malformed_chat_body_witness :
  chat_api calm NotJson shop
  = (Ok {| body := [("response", OText [Lit "Sorry, something went wrong. Please try again."]);
                    ("success", OBool false);
                    ("error", OText [StrOf JSONDecodeError])];
           status_code := 500 |}, shop).
Proof.
  apply (malformed_chat_body calm NotJson shop).
  intros items. discriminate.
Defined.

(** ** [chat_api]: what no request can make it do *)

Lemma world_eta w :
  w = {| phones := phones w; orders := orders w; sent := sent w ++ [] |}.
Proof. destruct w. simpl. rewrite app_nil_r. reflexivity. Qed.

Lemma sends_ret {A} (a : A) : sends_within 0 (ret a).
Proof. intros w. exists []. split; [reflexivity | apply world_eta]. Qed.

Lemma sends_raise {A} e : sends_within 0 (@raise A e).
Proof. intros w. exists []. split; [reflexivity | apply world_eta]. Qed.

Lemma sends_lift {A} (o : outcome A) : sends_within 0 (lift o).
Proof. intros w. exists []. split; [reflexivity | apply world_eta]. Qed.

Lemma sends_bind {A B} a b (m : M A) (k : A -> M B) :
  sends_within a m -> (forall x, sends_within b (k x)) -> sends_within (a + b) (bind m k).
Proof.
  intros Hm Hk w. unfold bind. destruct (Hm w) as (ps & Hlen & Hw).
  destruct (m w) as [[x|e] w1]; simpl in Hw; subst w1.
  - destruct (Hk x {| phones := phones w; orders := orders w; sent := sent w ++ ps |})
      as (qs & Hlen' & ->).
    exists (ps ++ qs). simpl. rewrite length_app, app_assoc. split; [lia | reflexivity].
  - exists ps. split; [lia | reflexivity].
Qed.

Lemma sends_try_except {A} a b (m : M A) (h : exn -> M A) :
  sends_within a m -> (forall e, sends_within b (h e)) ->
  sends_within (a + b) (try_except m h).
Proof.
  intros Hm Hh w. unfold try_except. destruct (Hm w) as (ps & Hlen & Hw).
  destruct (m w) as [[x|e] w1]; simpl in Hw; subst w1.
  - exists ps. split; [lia | reflexivity].
  - destruct (Hh e {| phones := phones w; orders := orders w; sent := sent w ++ ps |})
      as (qs & Hlen' & ->).
    exists (ps ++ qs). simpl. rewrite length_app, app_assoc. split; [lia | reflexivity].
Qed.

Lemma sends_if {A} n (b : bool) (m1 m2 : M A) :
  sends_within n m1 -> sends_within n m2 -> sends_within n (if b then m1 else m2).
Proof. destruct b; auto. Qed.

Lemma sends_more {A} n n' (m : M A) :
  (n <= n')%nat -> sends_within n m -> sends_within n' m.
Proof.
  intros Hle Hm w. destruct (Hm w) as (ps & Hlen & Hw).
  exists ps. split; [lia | exact Hw].
Qed.

Lemma sends_execute E op : sends_within 0 (execute E op).
Proof. unfold execute. destruct (db_fault E op); [apply sends_raise | apply sends_ret]. Qed.

Lemma sends_filter E : sends_within 0 (Phone_objects_filter E).
Proof.
  unfold Phone_objects_filter. apply (sends_bind 0 0); [apply sends_execute|].
  intros _ w. exists []. split; [reflexivity | apply world_eta].
Qed.

Lemma sends_json_loads b : sends_within 0 (json_loads b).
Proof. destruct b; [apply sends_raise | apply sends_ret]. Qed.

Lemma sends_post E r : sends_within 1 (requests_post E r).
Proof. intros w. exists [r]. split; reflexivity. Qed.

Lemma sends_mapM {A B} (f : A -> M B) xs :
  (forall x, sends_within 0 (f x)) -> sends_within 0 (mapM f xs).
Proof.
  intros Hf. induction xs as [|x xs IH]; simpl; [apply sends_ret|].
  apply (sends_bind 0 0); [apply Hf|]. intros y.
  apply (sends_bind 0 0); [apply IH|]. intros ys. apply sends_ret.
Qed.

Lemma sends_history_message msg : sends_within 0 (history_message msg).
Proof.
  unfold history_message.
  apply (sends_bind 0 0); [apply sends_lift|]. intros r.
  apply (sends_bind 0 0); [apply sends_lift|]. intros c. apply sends_ret.
Qed.

Create HintDb sends.
#[local] Hint Resolve sends_ret sends_raise sends_lift sends_execute sends_filter
  sends_json_loads sends_history_message : sends.

(** Everything before the call to the service sends nothing. *)
Ltac sends_nothing :=
  first
    [ solve [auto with sends]
    | apply sends_mapM; intros ?
    | apply (sends_bind 0 0); [|intros ?]
    | apply (sends_try_except 0 0); [|intros ?]
    | apply sends_if ].

(** X17: whatever the request, the environment and the reply of the
    service, [chat_api] answers (no exception leaves it), changes neither
    table, and sends at most one request to the service. *)
Theorem chat_api_sends_at_most_once E request w :
  (exists r, (chat_api E request w).1 = Ok r)
  /\ phones (chat_api E request w).2 = phones w
  /\ orders (chat_api E request w).2 = orders w
  /\ (sent (chat_api E request w).2 = sent w
      \/ exists post, sent (chat_api E request w).2 = sent w ++ [post]).
Proof.
  assert (Hsends : sends_within 1 (chat_api E request)).
  { unfold chat_api. apply (sends_try_except 1 0).
    - apply (sends_bind 0 1); [auto with sends|]. intros data.
      apply (sends_bind 0 1); [auto with sends|]. intros user_message.
      apply sends_if; [apply (sends_more 0); [lia | apply sends_ret]|].
      apply (sends_bind 0 1).
      { repeat sends_nothing. }
      intros phones_context.
      apply (sends_bind 0 1); [auto with sends|]. intros chat_history.
      apply (sends_bind 0 1); [auto with sends|]. intros recent.
      apply (sends_bind 0 1); [repeat sends_nothing|]. intros turns.
      apply (sends_bind 1 0); [apply sends_post|]. intros result.
      repeat sends_nothing.
    - intros e. destruct e; apply sends_ret. }
  split; [|].
  - unfold chat_api, try_except.
    match goal with |- context [match ?m w with _ => _ end] => destruct (m w) as [[r|e] w1] end.
    + exists r. reflexivity.
    + destruct e; eexists; reflexivity.
  - destruct (Hsends w) as (posts & Hlen & ->). simpl.
    split; [reflexivity|]. split; [reflexivity|].
    destruct posts as [|post [|post' posts]]; simpl in Hlen.
    + left. apply app_nil_r.
    + right. exists post. reflexivity.
    + lia.
Qed.

(** ** Placements interleaved: the invariant of the data model *)

Lemma keeps_get E phone_id : keeps_stores (Phone_objects_get E phone_id).
Proof.
  unfold Phone_objects_get.
  apply keeps_bind; [apply keeps_lift|]. intros pk.
  apply keeps_bind; [apply keeps_execute|]. intros _ w.
  destruct (phones w !! pk) as [p|]; [destruct (is_available p)|]; split; reflexivity.
Qed.

Lemma keeps_load E request : keeps_stores (load E request).
Proof.
  unfold load.
  apply keeps_bind; [apply keeps_json_loads|]. intros data.
  do 7 (apply keeps_bind; [apply keeps_lift|]; intros ?).
  apply keeps_if; [apply keeps_ret|].
  apply keeps_bind.
  { apply keeps_try_except.
    - apply keeps_bind; [apply keeps_get|]. intros row. apply keeps_ret.
    - intros e. destruct e; auto with keeps. }
  intros [[pk phone]|]; [|apply keeps_ret].
  apply keeps_if; apply keeps_ret.
Qed.

Lemma step_stock_invariant E t w :
  stock_invariant w -> stock_invariant (step E t w).2.
Proof.
  intros Hinv. destruct t as [request | pk p q n e c a | pk p q total o | r].
  - eapply stock_invariant_same; [|exact Hinv].
    unfold step. pose proof (keeps_load E request w) as Hk.
    destruct (load E request w) as [[t'|e'] w1]; apply Hk.
  - unfold step, insert_order, Order_objects_create, execute, bind, ret, raise.
    destruct (db_fault E OpCreate); simpl; exact Hinv.
  - unfold step, save_phone, Phone_save, execute, bind, ret, raise.
    destruct (db_fault E OpSave); simpl; [exact Hinv|].
    intros pk' p'. cbn [snd phones]. rewrite lookup_insert.
    destruct (decide (pk = pk')) as [->|Hne]; [|apply Hinv].
    intros [= <-]. simpl. destruct (stock p - q =? 0) eqn:Hz; simpl.
    + reflexivity.
    + apply Z.eqb_neq in Hz. intros Hzero. contradiction.
  - exact Hinv.
Qed.

(** X18: under every schedule and from every state of the placements in
    flight, no step makes a phone without stock available: the invariant
    of the data model survives the interleaving that lets orders
    oversell. *)
Theorem interleaving_keeps_stock_invariant E schedule ts w :
  stock_invariant w -> stock_invariant (run E schedule ts w).2.
Proof.
  revert ts w. induction schedule as [|i schedule IH]; intros ts w Hinv.
  - exact Hinv.
  - simpl. destruct (ts !! i) as [t|]; [|apply IH, Hinv].
    pose proof (step_stock_invariant E t w Hinv) as Hstep.
    destruct (step E t w) as [t' w']. apply IH, Hstep.
Qed.

Lemma stock_invariant_last_unit : stock_invariant last_unit.
Proof.
  intros pk p. unfold last_unit. simpl. rewrite lookup_singleton.
  destruct (decide (1 = pk)); [|discriminate].
  intros [= <-]. discriminate.
Qed.

Lemma interleaving_keeps_stock_invariant_witness :
  stock_invariant
    (run calm [0; 1; 0; 1; 0; 1]%nat
       [Received (order_for 1 1); Received (order_for 1 1)] last_unit).2.
Proof.
  exact (interleaving_keeps_stock_invariant calm [0; 1; 0; 1; 0; 1]%nat
           [Received (order_for 1 1); Received (order_for 1 1)] last_unit
           stock_invariant_last_unit).
Defined.

Lemma load_within_stock E request w :
  within_stock (step E (Received request) w).1.
Proof.
  destruct request as [|data]; [exact I|].
  destruct data; try exact I.
  cbv [step load try_except bind lift ret raise json_loads py_get
       Phone_objects_get execute fst snd phones orders sent].
  destruct (assoc "phone_id" items), (assoc "quantity" items),
    (assoc "customer_name" items), (assoc "customer_email" items),
    (assoc "customer_phone" items), (assoc "shipping_address" items);
  cbv beta iota;
  (destruct (py_int _) as [q|]; [|exact I]);
  (destruct (negb (forallb truthy _)); [exact I|]);
  (destruct (py_int _) as [pk|[]]; try exact I);
  (destruct (db_fault E OpGet) as [[]|]; try exact I);
  destruct w as [ps os ss]; cbv beta iota;
  (destruct (ps !! pk) as [p|]; [|exact I]);
  (destruct (is_available p); [|exact I]);
  (destruct (stock p <? q) eqn:Hlt; [exact I|]);
  apply Z.ltb_ge in Hlt; exact Hlt.
Qed.

Lemma step_stock_nonneg E t w :
  within_stock t -> stock_nonneg w ->
  within_stock (step E t w).1 /\ stock_nonneg (step E t w).2.
Proof.
  intros Ht Hinv. destruct t as [request | pk p q n e c a | pk p q total o | r].
  - split; [apply load_within_stock|].
    unfold step. pose proof (keeps_load E request w) as [Hk _].
    destruct (load E request w) as [[t'|e'] w1]; simpl in *;
      unfold stock_nonneg; rewrite Hk; exact Hinv.
  - unfold step, insert_order, Order_objects_create, execute, bind, ret, raise.
    destruct (db_fault E OpCreate); simpl; split; try exact I; assumption.
  - unfold step, save_phone, Phone_save, execute, bind, ret, raise.
    destruct (db_fault E OpSave); simpl; split; try exact I; try assumption.
    intros pk' p'. cbn [phones]. rewrite lookup_insert.
    destruct (decide (pk = pk')) as [->|Hne]; [|apply Hinv].
    intros [= <-]. simpl in Ht.
    destruct (stock p - q =? 0); simpl; lia.
  - split; [exact I | exact Hinv].
Qed.

Lemma run_stock_nonneg E schedule : forall ts w,
  Forall within_stock ts -> stock_nonneg w ->
  stock_nonneg (run E schedule ts w).2.
Proof.
  induction schedule as [|i schedule IH]; intros ts w Hts Hinv.
  - exact Hinv.
  - simpl. destruct (ts !! i) as [t|] eqn:Hi; [|apply IH; assumption].
    assert (Ht : within_stock t).
    { rewrite Forall_forall in Hts. apply Hts. eapply list_elem_of_lookup_2, Hi. }
    destruct (step_stock_nonneg E t w Ht Hinv) as [Ht' Hinv'].
    destruct (step E t w) as [t' w']. apply IH; [|exact Hinv'].
    apply Forall_insert; assumption.
Qed.

(** X19: however the statements of any number of placements interleave, no
    stock becomes negative if none was: each placement writes back the
    stock it has read minus a quantity it has checked against it. *)
Theorem interleaving_keeps_stock_nonneg E schedule requests w :
  stock_nonneg w ->
  stock_nonneg (run E schedule (map Received requests) w).2.
Proof.
  intros Hinv. apply run_stock_nonneg; [|exact Hinv].
  apply Forall_forall. intros t Hin.
  apply list_elem_of_fmap in Hin as (request & -> & _). exact I.
Qed.

Lemma stock_nonneg_last_unit : stock_nonneg last_unit.
Proof.
  intros pk p. unfold last_unit. simpl. rewrite lookup_singleton.
  destruct (decide (1 = pk)); [|discriminate].
  intros [= <-]. discriminate.
Qed.

Lemma interleaving_keeps_stock_nonneg_witness :
  stock_nonneg
    (run calm [0; 1; 0; 1; 0; 1]%nat
       (map Received [order_for 1 1; order_for 1 1]) last_unit).2.
Proof.
  exact (interleaving_keeps_stock_nonneg calm [0; 1; 0; 1; 0; 1]%nat
           [order_for 1 1; order_for 1 1] last_unit stock_nonneg_last_unit).
Defined.

(** ** [chat_api]: turns older than the last ten *)


